(** * get_loadBalancerIP: which node answers ARP for a LoadBalancer IP

    Shallow embedding of the two entry points of the repository

      - [src/get_loadBalancerIP.go]  (coloured output, routing-table discovery)
      - [src/unnamed/part_000]       (plain output, address-scan discovery)

    The process is modelled as a computation over an explicit [World]
    (the file [k8s.inventory], the pending I/O faults, standard input and
    the hidden state of the remote hosts) that returns a result or the
    exit code of [os.Exit], together with the trace of the events it
    performed. *)

From Stdlib Require Import String Ascii List ZArith NArith Bool.
Import ListNotations.
Open Scope string_scope.

(** ** Go library functions used by the program *)

Definition nl : string := String "010"%char "".

(** [strings.HasPrefix]. *)
Definition HasPrefix (s pre : string) : bool := String.prefix pre s.

(** [strings.Contains]. *)
Fixpoint Contains (s substr : string) : bool :=
  if String.prefix substr s then true
  else match s with
       | EmptyString => false
       | String _ s' => Contains s' substr
       end.

(** [strings.Split] for a one-byte separator (both call sites pass one:
    a line feed and a comma). *)
Fixpoint Split (s : string) (sep : ascii) : list string :=
  match s with
  | EmptyString => [EmptyString]
  | String c s' =>
      if Ascii.eqb c sep then EmptyString :: Split s' sep
      else match Split s' sep with
           | hd :: tl => String c hd :: tl
           | [] => [String c EmptyString]
           end
  end.

(** [strings.TrimSpace] removes the leading and trailing runes for which
    [unicode.IsSpace] holds.  Strings are byte strings: the six ASCII
    spaces are one byte each, the other white-space runes are matched by
    their UTF-8 encodings. *)
Definition asciiSpace (c : ascii) : bool :=
  match N_of_ascii c with
  | 9%N | 10%N | 11%N | 12%N | 13%N | 32%N => true
  | _ => false
  end.

(** U+0085 and U+00A0. *)
Definition space2 (a b : ascii) : bool :=
  (N_of_ascii a =? 0xC2)%N && ((N_of_ascii b =? 0x85)%N || (N_of_ascii b =? 0xA0)%N).

(** U+1680, U+2000..U+200A, U+2028, U+2029, U+202F, U+205F, U+3000. *)
Definition space3 (a b c : ascii) : bool :=
  let a := N_of_ascii a in
  let b := N_of_ascii b in
  let c := N_of_ascii c in
  ((a =? 0xE1) && (b =? 0x9A) && (c =? 0x80))%N
  || ((a =? 0xE2) && (b =? 0x80)
      && (((0x80 <=? c) && (c <=? 0x8A)) || (c =? 0xA8) || (c =? 0xA9) || (c =? 0xAF)))%N
  || ((a =? 0xE2) && (b =? 0x81) && (c =? 0x9F))%N
  || ((a =? 0xE3) && (b =? 0x80) && (c =? 0x80))%N.

(** Drops leading white space; with [rv] the bytes are those of the
    reversed string, so an encoding is read back to front. *)
Fixpoint trimLeft (rv : bool) (l : list ascii) : list ascii :=
  match l with
  | [] => []
  | a :: l1 =>
      if asciiSpace a then trimLeft rv l1
      else match l1 with
           | [] => l
           | b :: l2 =>
               if (if rv then space2 b a else space2 a b) then trimLeft rv l2
               else match l2 with
                    | [] => l
                    | c :: l3 =>
                        if (if rv then space3 c b a else space3 a b c)
                        then trimLeft rv l3 else l
                    end
           end
  end.

Definition TrimSpace (s : string) : string :=
  string_of_list_ascii
    (rev (trimLeft true (rev (trimLeft false (list_ascii_of_string s))))).

(** [bufio.Reader.ReadString('\n')]: the input up to and including the
    first line feed, or all of it when there is none (the error is
    dropped at every call site). *)
Fixpoint readLine (s : string) : string * string :=
  match s with
  | EmptyString => (EmptyString, EmptyString)
  | String c s' =>
      if Ascii.eqb c "010"%char then (String c EmptyString, s')
      else let (line, rest) := readLine s' in (String c line, rest)
  end.

(** ** ANSI colour codes of [get_loadBalancerIP.go] *)

Definition ColorReset : string := String "027"%char "[0m".
Definition ColorRed : string := String "027"%char "[31m".
Definition ColorGreen : string := String "027"%char "[32m".
Definition ColorBlue : string := String "027"%char "[34m".
Definition ColorPurple : string := String "027"%char "[35m".
Definition ColorCyan : string := String "027"%char "[36m".

(** ** Data of the run *)

(** A Go [error], by its message. *)
Definition error : Type := string.

(** [v1.Service]: [Spec.Type] and the [IP] of every entry of
    [Status.LoadBalancer.Ingress]. *)
Record Service : Type := mkService {
  SpecType : string;
  Ingress : list string
}.

(** What the two list calls on the clientset answer. *)
Record Clientset : Type := mkClientset {
  ServicesList : list Service + error;
  NodesList : list string + error
}.

Record User : Type := mkUser {
  Username : string;
  HomeDir : string
}.

(** What the process finds when it starts: [user.Current], the outcome
    of [flag.Parse] ([Some c] when the flag package itself exits with
    code [c]), [clientcmd.BuildConfigFromFlags] and
    [kubernetes.NewForConfig]. *)
Record Host : Type := mkHost {
  user_Current : User + error;
  flag_Parse : option Z;
  BuildConfigFromFlags : option error;
  NewForConfig : Clientset + error
}.

(** The two entry points. *)
Inductive Variant : Type := Colored | Plain.

(** [tablewriter.Table], as far as the program fills it. *)
Record Table : Type := mkTable {
  header : list string;
  rows : list (list string)
}.

Definition NewWriter : Table := mkTable [] [].
Definition SetHeader (t : Table) (h : list string) : Table := mkTable h (rows t).
Definition Append (t : Table) (row : list string) : Table :=
  mkTable (header t) (rows t ++ [row]).

(** Events of a run.  [EInvoke fn] marks the entry into the function [fn]
    of the program; it is recorded for [removeInventoryFile], so that its
    invocations can be counted. *)
Inductive Event : Type :=
| EPrint (s : string)
| ECreate (err : option error)
| EWrite (s : string) (err : option error)
| EClose
| EStat (err : option error)
| ERemove (err : option error)
| EExec (args : list string) (out : string) (err : option error)
| ERender (t : Table)
| ESpinnerStart
| ESpinnerStop
| EInvoke (fn : string).

(** The command lines handed to [exec.Command]. *)
Definition probe_args (node ansibleUsername arpInterface ip : string) : list string :=
  ["ansible"; "-i"; "k8s.inventory"; node; "-u"; ansibleUsername; "-m"; "shell"; "-a";
   "arping -q -I " ++ arpInterface ++ " " ++ ip ++ " -c 1"].

Definition discover_args (v : Variant) : list string :=
  ["ansible"; "-i"; "k8s.inventory"; "k8s[1]"; "-m"; "shell"; "-a";
   match v with
   | Colored => "ip route | awk '/7/ {print $3}' | head -2"
   | Plain =>
       "ip addr show | grep -oP '^\d+: \K[^:]*' | xargs -I{} ip addr show {} | grep -oP '(?<=inet\s)7\S+'"
   end].

(** One inventory record, [fmt.Sprintf("%s ansible_user=%s\n", ...)]. *)
Definition inventory_line (ansibleUsername node : string) : string :=
  node ++ " ansible_user=" ++ ansibleUsername ++ nl.

(** ** Sample environments *)

(** A cluster on which every remote command ends in a transport error. *)
Definition unreachable (args : list string) (inv : option string) (e : unit)
  : (string * option error) * unit :=
  (("n1 | UNREACHABLE! => Failed to connect to the host via ssh", Some "exit status 4"), e).

(** A cluster whose discovery command answers three lines, none of them
    with a "7", and on which a probe ends in an error with the marker
    exactly for the address 7.1.2.3.  The state counts the commands. *)
Definition sample_ansible (args : list string) (inv : option string) (e : nat)
  : (string * option error) * nat :=
  let cmd := last args EmptyString in
  if HasPrefix cmd "arping "
  then if Contains cmd " 7.1.2.3 "
       then (("node | FAILED | rc=2 >>", Some "exit status 2"), S e)
       else (("node | CHANGED | rc=0 >>", None), S e)
  else (("node1 | CHANGED | rc=0 >>" ++ nl ++ "10.0.0.1" ++ nl ++ "eth1" ++ nl, None), S e).

(** A host on which the setup succeeds, with the nodes n1 and n2. *)
Definition sample_host (services : list Service + error) : Host :=
  mkHost (inl (mkUser "bob" "/home/bob")) None None
         (inl (mkClientset services (inl ["n1"; "n2"]))).

(** ** The process monad and the program *)

(** Result of a computation: a value, or the code given to [os.Exit]. *)
Inductive Res (A : Type) : Type :=
| Ret (a : A)
| Exit (code : Z).
Arguments Ret {A} a.
Arguments Exit {A} code.

Section Program.

(** Hidden state of the remote hosts, and the transport: what running
    the command line answers (combined output and error), given the
    inventory file as it is on disk at that moment. *)
Variable E : Type.
Variable ansible : list string -> option string -> E -> (string * option error) * E.

(** What the process acts on: the contents of [./k8s.inventory] if the
    file exists; the faults pending for the system calls on that file, one
    entry per call in order ([Some e]: the call fails with [e] and changes
    nothing; no entry left: the call behaves normally); what is left to
    read on standard input; and the state of the remote hosts. *)
Record World : Type := mkWorld {
  inventory : option string;
  faults : list (option error);
  stdin : string;
  remote : E
}.

(** Outcome of a computation: its result, the events it performed in
    order, and the world it leaves. *)

Record Out (A : Type) : Type := mkOut {
  res : Res A;
  evs : list Event;
  world : World
}.
Arguments mkOut {A} res evs world.
Arguments res {A} o.
Arguments evs {A} o.
Arguments world {A} o.

Definition M (A : Type) : Type := World -> Out A.

Definition ret {A : Type} (a : A) : M A := fun w => mkOut (Ret a) [] w.

Definition bind {A B : Type} (m : M A) (k : A -> M B) : M B := fun w =>
  match m w with
  | mkOut (Ret a) e1 w1 =>
      match k a w1 with
      | mkOut r e2 w2 => mkOut r (e1 ++ e2) w2
      end
  | mkOut (Exit c) e1 w1 => mkOut (Exit c) e1 w1
  end.

Notation "x <- m ;; k" := (bind m (fun x => k))
  (at level 61, m at next level, right associativity).
Notation "m ;; k" := (bind m (fun _ => k))
  (at level 61, right associativity).

Definition os_Exit {A : Type} (code : Z) : M A := fun w => mkOut (Exit code) [] w.

Definition emit (e : Event) : M unit := fun w => mkOut (Ret tt) [e] w.

(** [fmt.Print], [fmt.Printf] and [fmt.Println] of the formatted text. *)
Definition Print (s : string) : M unit := emit (EPrint s).

(** [reader.ReadString('\n')]. *)
Definition ReadString : M string := fun w =>
  let (line, rest) := readLine (stdin w) in
  mkOut (Ret line) [] (mkWorld (inventory w) (faults w) rest (remote w)).

(** The next pending fault, if any. *)
Definition next_fault (w : World) : option error * World :=
  match faults w with
  | [] => (None, w)
  | f :: fs => (f, mkWorld (inventory w) fs (stdin w) (remote w))
  end.

(** [os.Create("k8s.inventory")]: creates the file or truncates it. *)
Definition os_Create : M (option error) := fun w =>
  match next_fault w with
  | (Some e, w1) => mkOut (Ret (Some e)) [ECreate (Some e)] w1
  | (None, w1) =>
      mkOut (Ret None) [ECreate None]
            (mkWorld (Some EmptyString) (faults w1) (stdin w1) (remote w1))
  end.

(** [file.WriteString(s)] on the file just created. *)
Definition file_WriteString (s : string) : M (option error) := fun w =>
  match next_fault w with
  | (Some e, w1) => mkOut (Ret (Some e)) [EWrite s (Some e)] w1
  | (None, w1) =>
      mkOut (Ret None) [EWrite s None]
            (mkWorld (match inventory w1 with
                      | Some c => Some (c ++ s)
                      | None => None
                      end) (faults w1) (stdin w1) (remote w1))
  end.

Definition file_Close : M unit := emit EClose.

(** [os.Stat("k8s.inventory")]: only the error is looked at. *)
Definition os_Stat : M (option error) := fun w =>
  match next_fault w with
  | (Some e, w1) => mkOut (Ret (Some e)) [EStat (Some e)] w1
  | (None, w1) =>
      let err := match inventory w1 with
                 | Some _ => None
                 | None => Some "stat k8s.inventory: no such file or directory"
                 end in
      mkOut (Ret err) [EStat err] w1
  end.

(** [os.Remove("k8s.inventory")]. *)
Definition os_Remove : M (option error) := fun w =>
  match next_fault w with
  | (Some e, w1) => mkOut (Ret (Some e)) [ERemove (Some e)] w1
  | (None, w1) =>
      match inventory w1 with
      | Some _ =>
          mkOut (Ret None) [ERemove None]
                (mkWorld None (faults w1) (stdin w1) (remote w1))
      | None =>
          let e := "remove k8s.inventory: no such file or directory" in
          mkOut (Ret (Some e)) [ERemove (Some e)] w1
      end
  end.

(** [exec.Command(args...).CombinedOutput()]. *)
Definition CombinedOutput (args : list string) : M (string * option error) := fun w =>
  match ansible args (inventory w) (remote w) with
  | ((out, err), e') =>
      mkOut (Ret (out, err)) [EExec args out err]
            (mkWorld (inventory w) (faults w) (stdin w) e')
  end.

(** Text wrapped in a colour by the coloured entry point only. *)
Definition paint (v : Variant) (color s : string) : string :=
  match v with
  | Colored => color ++ s ++ ColorReset
  | Plain => s
  end.

Definition printWelcomeMessage (v : Variant) (currentUser : User) : M unit :=
  Print (nl ++ "*******************************************" ++ nl) ;;
  Print (paint v ColorGreen ("*** Welcome, " ++ Username currentUser ++ "! ***") ++ nl) ;;
  Print ("*******************************************" ++ nl) ;;
  Print (match v with
         | Colored =>
             ColorCyan ++ "This tool helps you find the node name associated with LoadBalancer IPs in your Kubernetes cluster." ++ ColorReset ++ nl
         | Plain =>
             String "027"%char "[3mThis tool helps you find the node name associated with LoadBalancer IPs in your Kubernetes cluster." ++ String "027"%char "[0m" ++ nl
         end).

(** The two nested [for ... range] loops that collect the addresses. *)
Definition collectIngress (lbIPs : list string) (ingress : list string) : list string :=
  fold_left (fun acc ip => if HasPrefix ip "7" then (acc ++ [ip])%list else acc) ingress lbIPs.

Definition collectServices (lbIPs : list string) (items : list Service) : list string :=
  fold_left (fun acc service =>
               if String.eqb (SpecType service) "LoadBalancer"
               then collectIngress acc (Ingress service)
               else acc) items lbIPs.

Definition getLoadBalancerIPsStartingWithSeven (v : Variant) (clientset : Clientset)
  : M (list string) :=
  let lbIPs : list string := [] in
  match ServicesList clientset with
  | inr err =>
      Print (paint v ColorRed ("Error fetching services: " ++ err) ++ nl) ;;
      ret lbIPs
  | inl items => ret (collectServices lbIPs items)
  end.

Definition getSpecificLoadBalancerIPs : M (list string) :=
  Print (nl ++ "Enter LB IP(s) separated by comma: ") ;;
  lbIPsStr <- ReadString ;;
  let lbIPsStr := TrimSpace lbIPsStr in
  ret (Split lbIPsStr ","%char).

Definition getAllNodes (clientset : Clientset) : list string + error :=
  match NodesList clientset with
  | inr err => inr err
  | inl items => inl (fold_left (fun nodes name => (nodes ++ [name])%list) items [])
  end.

(** The loop of [createInventoryFile]: stops at the first failed write. *)
Fixpoint writeNodes (nodes : list string) (ansibleUsername : string) : M (option error) :=
  match nodes with
  | [] => ret None
  | node :: rest =>
      err <- file_WriteString (inventory_line ansibleUsername node) ;;
      match err with
      | Some e => ret (Some e)
      | None => writeNodes rest ansibleUsername
      end
  end.

(** [defer file.Close()] runs on every return after the file was opened. *)
Definition createInventoryFile (nodes : list string) (ansibleUsername : string)
  : M (option error) :=
  err <- os_Create ;;
  match err with
  | Some e => ret (Some e)
  | None =>
      r <- (err <- file_WriteString ("[k8s]" ++ nl) ;;
            match err with
            | Some e => ret (Some e)
            | None => writeNodes nodes ansibleUsername
            end) ;;
      file_Close ;;
      ret r
  end.

(** The progress indicator runs beside the main flow and only prints;
    its start and its stop (which waits for the acknowledgement) are
    recorded, its output is not. *)
Definition loadingAnimation : M unit := emit ESpinnerStart.
Definition stopSpinner : M unit := emit ESpinnerStop.

Definition isErr (err : option error) : bool :=
  match err with Some _ => true | None => false end.

(** Inner loop of [runARPCommandOnAllNodes]: one node, every address. *)
Fixpoint probeIPs (node arpInterface ansibleUsername : string) (lbIPs : list string)
         (hostingNodes : list (list string)) : M (list (list string)) :=
  match lbIPs with
  | [] => ret hostingNodes
  | ip :: rest =>
      r <- CombinedOutput (probe_args node ansibleUsername arpInterface ip) ;;
      let (out, err) := r in
      probeIPs node arpInterface ansibleUsername rest
        (if isErr err
         then (if Contains out "FAILED" then (hostingNodes ++ [[node; ip]])%list else hostingNodes)
         else hostingNodes)
  end.

(** Outer loop. *)
Fixpoint probeNodes (nodes : list string) (arpInterface ansibleUsername : string)
         (lbIPs : list string) (hostingNodes : list (list string))
  : M (list (list string)) :=
  match nodes with
  | [] => ret hostingNodes
  | node :: rest =>
      hostingNodes' <- probeIPs node arpInterface ansibleUsername lbIPs hostingNodes ;;
      probeNodes rest arpInterface ansibleUsername lbIPs hostingNodes'
  end.

(** The colour settings of the table differ between the entry points and
    have no part in what is rendered as rows. *)
Definition runARPCommandOnAllNodes (nodes : list string) (arpInterface : string)
           (lbIPs : list string) (ansibleUsername : string) : M unit :=
  hostingNodes <- probeNodes nodes arpInterface ansibleUsername lbIPs [] ;;
  Print (nl ++ "Here is your result:" ++ nl) ;;
  let table := NewWriter in
  let table := SetHeader table ["Node Name"; "LoadBalancer IP"] in
  let table := fold_left Append hostingNodes table in
  emit (ERender table).

Definition removeInventoryFile : M (option error) :=
  emit (EInvoke "removeInventoryFile") ;;
  err <- os_Stat ;;
  match err with
  | None =>
      err <- os_Remove ;;
      match err with
      | Some e => ret (Some e)
      | None => ret None
      end
  | Some _ => ret None
  end.

Definition getInterfaceNameStartingWithSeven (v : Variant) : M string :=
  r <- CombinedOutput (discover_args v) ;;
  let (out, err) := r in
  match err with
  | Some e =>
      Print (paint v ColorRed ("Error executing Ansible command: " ++ e) ++ nl) ;;
      ret EmptyString
  | None =>
      match v with
      | Colored =>
          let lines := Split (TrimSpace out) "010"%char in
          if (3 <=? length lines)%nat
          then ret (TrimSpace (nth 2 lines EmptyString))
          else ret EmptyString
      | Plain => ret (TrimSpace out)
      end
  end.

(** [fmt.Println(color, s, ColorReset)] puts a space between operands. *)
Definition paintln (v : Variant) (color s : string) : string :=
  match v with
  | Colored => color ++ " " ++ s ++ " " ++ ColorReset ++ nl
  | Plain => s ++ nl
  end.

Definition isEmpty (s : string) : bool := String.eqb s EmptyString.

(** [main] of [src/get_loadBalancerIP.go]. *)
Definition main_colored (h : Host) : M unit :=
  let v := Colored in
  match user_Current h with
  | inr err =>
      Print (paint v ColorRed ("Error getting current user: " ++ err) ++ nl) ;;
      os_Exit 1
  | inl currentUser =>
  match flag_Parse h with
  | Some code => os_Exit code
  | None =>
  match BuildConfigFromFlags h with
  | Some err =>
      Print (paint v ColorRed ("Error loading kubeconfig: " ++ err) ++ nl) ;;
      os_Exit 1
  | None =>
  match NewForConfig h with
  | inr err =>
      Print (paint v ColorRed ("Error creating Kubernetes client: " ++ err) ++ nl) ;;
      os_Exit 1
  | inl clientset =>
  printWelcomeMessage v currentUser ;;
  Print (paint v ColorBlue
           (nl ++ "Enter the Ansible username to run ARP command (Ex: johndoe or johndoe-adm): ")) ;;
  ansibleUsername <- ReadString ;;
  let ansibleUsername := TrimSpace ansibleUsername in
  match getAllNodes clientset with
  | inr err =>
      Print (paint v ColorRed ("Error fetching nodes: " ++ err) ++ nl) ;;
      os_Exit 1
  | inl nodes =>
  err <- createInventoryFile nodes ansibleUsername ;;
  match err with
  | Some err =>
      Print (paint v ColorRed ("Error creating inventory file: " ++ err) ++ nl) ;;
      os_Exit 1
  | None =>
  arpInterface <- getInterfaceNameStartingWithSeven v ;;
  if isEmpty arpInterface
  then
    Print (paintln v ColorRed
             "Failed to retrieve network interface starting with '7'. Please check your setup.") ;;
    os_Exit 1
  else
  Print (paint v ColorBlue (nl ++ "Do you want to get all LoadBalancer IPs ? (yes/no): ")) ;;
  option <- ReadString ;;
  let option := TrimSpace option in
  lbIPs <- (if String.eqb option "yes"
            then getLoadBalancerIPsStartingWithSeven v clientset
            else if String.eqb option "no"
            then getSpecificLoadBalancerIPs
            else
              Print (paintln v ColorRed "Invalid option. Please choose 'yes' or 'no'.") ;;
              os_Exit 1) ;;
  loadingAnimation ;;
  runARPCommandOnAllNodes nodes arpInterface lbIPs ansibleUsername ;;
  Print (nl ++ "Interface Used to run ARP command: "
            ++ ColorGreen ++ arpInterface ++ ColorReset ++ nl ++ nl ++ nl) ;;
  Print (ColorPurple ++ "****" ++ ColorReset ++ nl ++ nl) ;;
  err <- removeInventoryFile ;;
  match err with
  | Some err => Print (paint v ColorRed ("Error removing inventory file: " ++ err) ++ nl)
  | None => ret tt
  end ;;
  (* deferred: runs when main returns *)
  stopSpinner
  end end end end end end.

(** [main] of [src/unnamed/part_000]. *)
Definition main_plain (h : Host) : M unit :=
  let v := Plain in
  match user_Current h with
  | inr err =>
      Print (paint v ColorRed ("Error getting current user: " ++ err) ++ nl) ;;
      os_Exit 1
  | inl currentUser =>
  match flag_Parse h with
  | Some code => os_Exit code
  | None =>
  match BuildConfigFromFlags h with
  | Some err =>
      Print (paint v ColorRed ("Error loading kubeconfig: " ++ err) ++ nl) ;;
      os_Exit 1
  | None =>
  match NewForConfig h with
  | inr err =>
      Print (paint v ColorRed ("Error creating Kubernetes client: " ++ err) ++ nl) ;;
      os_Exit 1
  | inl clientset =>
  printWelcomeMessage v currentUser ;;
  Print (paint v ColorBlue
           (nl ++ "Enter the Ansible username to run ARP command (Ex: johndoe or johndoe-adm): ")) ;;
  ansibleUsername <- ReadString ;;
  let ansibleUsername := TrimSpace ansibleUsername in
  arpInterface <- getInterfaceNameStartingWithSeven v ;;
  if isEmpty arpInterface
  then
    Print (paintln v ColorRed
             "Failed to retrieve network interface starting with '7'. Please check your setup.") ;;
    os_Exit 1
  else
  Print (paint v ColorBlue (nl ++ "Do you want to get all LoadBalancer IPs ? (yes/no): ")) ;;
  option <- ReadString ;;
  let option := TrimSpace option in
  lbIPs <- (if String.eqb option "yes"
            then getLoadBalancerIPsStartingWithSeven v clientset
            else if String.eqb option "no"
            then getSpecificLoadBalancerIPs
            else
              Print (paintln v ColorRed "Invalid option. Please choose 'yes' or 'no'.") ;;
              os_Exit 1) ;;
  match getAllNodes clientset with
  | inr err =>
      Print (paint v ColorRed ("Error fetching nodes: " ++ err) ++ nl) ;;
      os_Exit 1
  | inl nodes =>
  err <- createInventoryFile nodes ansibleUsername ;;
  match err with
  | Some err =>
      Print (paint v ColorRed ("Error creating inventory file: " ++ err) ++ nl) ;;
      os_Exit 1
  | None =>
  loadingAnimation ;;
  runARPCommandOnAllNodes nodes arpInterface lbIPs ansibleUsername ;;
  err <- removeInventoryFile ;;
  match err with
  | Some err => Print (paint v ColorRed ("Error removing inventory file: " ++ err) ++ nl)
  | None => ret tt
  end ;;
  (* deferred: runs when main returns *)
  stopSpinner
  end end end end end end.

Definition main (v : Variant) : Host -> M unit :=
  match v with
  | Colored => main_colored
  | Plain => main_plain
  end.

(** ** Observations on a trace *)

(** An ARP probe: a remote command whose shell line is an [arping]. *)
Definition is_probe (e : Event) : bool :=
  match e with
  | EExec args _ _ => HasPrefix (last args EmptyString) "arping "
  | _ => false
  end.

Fixpoint probes (l : list Event) : list Event :=
  match l with
  | [] => []
  | e :: l' => if is_probe e then e :: probes l' else probes l'
  end.

(** The remote commands of a trace: command line and answer. *)
Fixpoint execs (l : list Event) : list (list string * (string * option error)) :=
  match l with
  | [] => []
  | EExec args out err :: l' => (args, (out, err)) :: execs l'
  | _ :: l' => execs l'
  end.

(** How often [removeInventoryFile] was entered. *)
Definition is_removal (e : Event) : bool :=
  match e with
  | EInvoke fn => String.eqb fn "removeInventoryFile"
  | _ => false
  end.

Fixpoint removals (l : list Event) : nat :=
  match l with
  | [] => 0
  | e :: l' => if is_removal e then S (removals l') else removals l'
  end.

(** Whether the trace touches the inventory file for writing. *)
Definition is_file_write (e : Event) : bool :=
  match e with
  | ECreate _ | EWrite _ _ => true
  | _ => false
  end.

Fixpoint created (l : list Event) : bool :=
  match l with
  | [] => false
  | ECreate None :: _ => true
  | _ :: l' => created l'
  end.

(** The tables rendered by a trace. *)
Fixpoint rendered (l : list Event) : list Table :=
  match l with
  | [] => []
  | ERender t :: l' => t :: rendered l'
  | _ :: l' => rendered l'
  end.

Fixpoint printed (l : list Event) (s : string) : bool :=
  match l with
  | [] => false
  | EPrint s' :: l' => if String.eqb s' s then true else printed l' s
  | _ :: l' => printed l' s
  end.

(** The probe is classified Hosting: failure exit and the marker. *)
Definition hosting (r : string * option error) : bool :=
  isErr (snd r) && Contains (fst r) "FAILED".

(** The pairs in the order of the two loops. *)
Definition pairs (nodes lbIPs : list string) : list (string * string) :=
  flat_map (fun node => map (fun ip => (node, ip)) lbIPs) nodes.

(** The candidate set as the specification words it: the ingress
    addresses of the LoadBalancer services that begin with "7", in the
    order they are listed. *)
Definition candidates (items : list Service) : list string :=
  flat_map (fun service =>
              if String.eqb (SpecType service) "LoadBalancer"
              then filter (fun ip => HasPrefix ip "7") (Ingress service)
              else []) items.

(** The inventory artifact as the specification words it. *)
Definition inventory_content (nodes : list string) (ansibleUsername : string) : string :=
  "[k8s]" ++ nl ++ fold_right String.append "" (map (inventory_line ansibleUsername) nodes).

(** Running command lines one after the other, each in the remote state
    the previous one left. *)
Fixpoint thread (cmds : list (list string)) (inv : option string) (e : E)
  : list (list string * (string * option error)) :=
  match cmds with
  | [] => []
  | c :: cmds' => (c, fst (ansible c inv e)) :: thread cmds' inv (snd (ansible c inv e))
  end.

(** The rows that the classified outcomes give. *)
Definition hosting_rows (outcomes : list ((string * string) * (string * option error)))
  : list (list string) :=
  map (fun x => [fst (fst x); snd (fst x)]) (filter (fun x => hosting (snd x)) outcomes).

(** The first [k] pending faults are none: the next [k] system calls on
    the file behave normally. *)
Fixpoint no_fault (k : nat) (fs : list (option error)) : bool :=
  match k, fs with
  | O, _ => true
  | S _, [] => true
  | S k', f :: fs' => negb (isErr f) && no_fault k' fs'
  end.

(** Events on the inventory file only. *)
Definition file_event (e : Event) : bool :=
  match e with
  | ECreate _ | EWrite _ _ | EClose => true
  | _ => false
  end.

(** The remote state after running the command lines in turn. *)
Fixpoint thread_end (cmds : list (list string)) (inv : option string) (e : E) : E :=
  match cmds with
  | [] => e
  | c :: cmds' => thread_end cmds' inv (snd (ansible c inv e))
  end.

(** A remote command and its answer, as the event it was. *)
Definition exec_event (x : list string * (string * option error)) : Event :=
  EExec (fst x) (fst (snd x)) (snd (snd x)).

(** The command lines of a sweep, node by node. *)
Definition sweep (nodes : list string) (arpInterface ansibleUsername : string)
           (lbIPs : list string) : list (list string) :=
  flat_map (fun node => map (probe_args node ansibleUsername arpInterface) lbIPs) nodes.

(** The events after the first entry into [removeInventoryFile]. *)
Fixpoint after_removal (l : list Event) : list Event :=
  match l with
  | [] => []
  | e :: l' => if is_removal e then l' else after_removal l'
  end.


(** The first failure among the next [k] system calls on the file. *)
Fixpoint first_fault (k : nat) (fs : list (option error)) : option error :=
  match k, fs with
  | O, _ => None
  | S _, [] => None
  | S _, Some e :: _ => Some e
  | S k', None :: fs' => first_fault k' fs'
  end.

Definition is_write (e : Event) : bool :=
  match e with
  | EWrite _ _ => true
  | _ => false
  end.
(** The setup of [main] succeeds: current user, flags, kubeconfig, client. *)
Definition setup_ok (h : Host) : bool :=
  match user_Current h, flag_Parse h, BuildConfigFromFlags h, NewForConfig h with
  | inl _, None, None, inl _ => true
  | _, _, _, _ => false
  end.

Definition is_print (e : Event) : bool :=
  match e with
  | EPrint _ => true
  | _ => false
  end.

(** The starts and stops of the progress indicator, in order. *)
Fixpoint spins (l : list Event) : list Event :=
  match l with
  | [] => []
  | ESpinnerStart :: l' => ESpinnerStart :: spins l'
  | ESpinnerStop :: l' => ESpinnerStop :: spins l'
  | _ :: l' => spins l'
  end.

(** The errors of the [os.Remove] calls of a trace. *)
Fixpoint remove_errors (l : list Event) : list error :=
  match l with
  | [] => []
  | ERemove (Some e) :: l' => e :: remove_errors l'
  | _ :: l' => remove_errors l'
  end.

(** ** Traces *)

Lemma execs_app (l1 l2 : list Event) : execs (l1 ++ l2) = (execs l1 ++ execs l2)%list.
Proof.
  induction l1 as [|e l1 IH]; simpl; [reflexivity|].
  destruct e; simpl; rewrite ?IH; reflexivity.
Qed.

Lemma rendered_app (l1 l2 : list Event) :
  rendered (l1 ++ l2) = (rendered l1 ++ rendered l2)%list.
Proof.
  induction l1 as [|e l1 IH]; simpl; [reflexivity|].
  destruct e; simpl; rewrite ?IH; reflexivity.
Qed.

Lemma removals_app (l1 l2 : list Event) :
  removals (l1 ++ l2) = removals l1 + removals l2.
Proof.
  induction l1 as [|e l1 IH]; simpl; [reflexivity|].
  destruct (is_removal e); simpl; now rewrite IH.
Qed.

Lemma probes_app (l1 l2 : list Event) : probes (l1 ++ l2) = (probes l1 ++ probes l2)%list.
Proof.
  induction l1 as [|e l1 IH]; simpl; [reflexivity|].
  destruct (is_probe e); simpl; now rewrite IH.
Qed.

Lemma created_app (l1 l2 : list Event) : created (l1 ++ l2) = created l1 || created l2.
Proof.
  induction l1 as [|e l1 IH]; simpl; [reflexivity|].
  destruct e as [| [|] | | | | | | | | |]; simpl; auto.
Qed.

Lemma printed_app (l1 l2 : list Event) (s : string) :
  printed (l1 ++ l2) s = printed l1 s || printed l2 s.
Proof.
  induction l1 as [|e l1 IH]; simpl; [reflexivity|].
  destruct e; simpl; auto. destruct (String.eqb s0 s); auto.
Qed.

(** ** Candidate addresses *)

Lemma collectIngress_filter (ingress acc : list string) :
  collectIngress acc ingress = (acc ++ filter (fun ip => HasPrefix ip "7") ingress)%list.
Proof.
  unfold collectIngress. revert acc.
  induction ingress as [|ip ingress IH]; intros acc; simpl.
  - now rewrite app_nil_r.
  - rewrite IH. destruct (HasPrefix ip "7"); [|reflexivity].
    now rewrite <- app_assoc.
Qed.

Lemma collectServices_candidates (items : list Service) (acc : list string) :
  collectServices acc items = (acc ++ candidates items)%list.
Proof.
  unfold collectServices, candidates. revert acc.
  induction items as [|service items IH]; intros acc; simpl.
  - now rewrite app_nil_r.
  - rewrite IH. destruct (String.eqb (SpecType service) "LoadBalancer"); simpl.
    + rewrite collectIngress_filter. now rewrite <- app_assoc.
    + reflexivity.
Qed.

(** C7. On a successful service listing the auto-discovery returns exactly
    the ingress addresses of the LoadBalancer-type services that begin with
    "7", in listing order, and does nothing else.  An address is selected
    exactly when its service has type LoadBalancer and it has the prefix.
    LoadBalancer services with the addresses 7.1.2.3, 8.9.9.9, 7.5.5.5 (one
    each, or all on one service beside a service of another type) give
    exactly 7.1.2.3, 7.5.5.5. *)
Theorem C7_candidates_filtered :
  (forall v items nodes w,
      getLoadBalancerIPsStartingWithSeven v (mkClientset (inl items) nodes) w
      = mkOut (Ret (candidates items)) [] w)
  /\ (forall ip items,
         In ip (candidates items) <->
         exists service, In service items /\ SpecType service = "LoadBalancer"
                         /\ In ip (Ingress service) /\ HasPrefix ip "7" = true)
  /\ (forall v nodes w,
         res (getLoadBalancerIPsStartingWithSeven v
                (mkClientset (inl [mkService "LoadBalancer" ["7.1.2.3"];
                                   mkService "LoadBalancer" ["8.9.9.9"];
                                   mkService "LoadBalancer" ["7.5.5.5"]]) nodes) w)
         = Ret ["7.1.2.3"; "7.5.5.5"])
  /\ (forall v nodes w,
         res (getLoadBalancerIPsStartingWithSeven v
                (mkClientset (inl [mkService "LoadBalancer" ["7.1.2.3"; "8.9.9.9"; "7.5.5.5"];
                                   mkService "ClusterIP" ["7.9.9.9"]]) nodes) w)
         = Ret ["7.1.2.3"; "7.5.5.5"]).
Proof.
  split; [|split; [|split; intros; reflexivity]].
  - intros v items nodes w.
    unfold getLoadBalancerIPsStartingWithSeven, ret. simpl.
    now rewrite collectServices_candidates.
  - intros ip items. unfold candidates. rewrite in_flat_map. split.
    + intros [service [Hin Hip]]. exists service.
      destruct (String.eqb (SpecType service) "LoadBalancer") eqn:Hty; [|contradiction].
      apply String.eqb_eq in Hty. apply filter_In in Hip. tauto.
    + intros [service [Hin [Hty [Hip Hpre]]]]. exists service. split; [assumption|].
      rewrite Hty. simpl. apply filter_In. tauto.
Qed.

(** ** Stepping through the monad *)

Lemma bind_Ret {A B : Type} (m : M A) (k : A -> M B) (w : World) a e1 w1 :
  m w = mkOut (Ret a) e1 w1 ->
  bind m k w = mkOut (res (k a w1)) (e1 ++ evs (k a w1)) (world (k a w1)).
Proof. unfold bind. intros ->. now destruct (k a w1). Qed.

Lemma file_events_quiet (l : list Event) :
  forallb file_event l = true ->
  execs l = [] /\ probes l = [] /\ removals l = 0 /\ rendered l = []
  /\ forall s, printed l s = false.
Proof.
  induction l as [|e l IH]; simpl; [now auto|].
  intros H. apply andb_prop in H. destruct H as [He Hl].
  destruct (IH Hl) as [H1 [H2 [H3 [H4 H5]]]].
  destruct e; try discriminate He; unfold probes, removals in *; simpl; auto.
Qed.

(** ** The inventory artifact *)

Ltac write_loop nodes :=
  let node := fresh "node" in
  let IH := fresh "IH" in
  let inv := fresh "inv" in
  let fs := fresh "fs" in
  let err := fresh "err" in
  induction nodes as [|node nodes IH]; intros [inv fs ? ?];
  [ cbn [writeNodes ret res evs world length]
  | cbn [writeNodes]; destruct fs as [|[err|] fs];
    (erewrite bind_Ret by reflexivity); cbn [res evs world ret length] ].

Lemma writeNodes_res (nodes : list string) (u : string) (w : World) :
  exists r, res (writeNodes nodes u w) = Ret r.
Proof. revert w. write_loop nodes; eauto. Qed.

Lemma writeNodes_events (nodes : list string) (u : string) (w : World) :
  forallb file_event (evs (writeNodes nodes u w)) = true.
Proof. revert w. write_loop nodes; simpl; auto. Qed.

Lemma writeNodes_frame (nodes : list string) (u : string) (w : World) :
  stdin (world (writeNodes nodes u w)) = stdin w
  /\ remote (world (writeNodes nodes u w)) = remote w.
Proof.
  revert w. write_loop nodes; simpl; auto.
Qed.

Lemma append_empty_r (s : string) : s ++ "" = s.
Proof. induction s; simpl; congruence. Qed.

Lemma append_assoc (s1 s2 s3 : string) : (s1 ++ s2) ++ s3 = s1 ++ (s2 ++ s3).
Proof. induction s1; simpl; congruence. Qed.

Lemma writeNodes_ok (nodes : list string) (u : string) (w : World) :
  res (writeNodes nodes u w) = Ret None ->
  faults (world (writeNodes nodes u w)) = skipn (length nodes) (faults w)
  /\ forall c, inventory w = Some c ->
       inventory (world (writeNodes nodes u w))
       = Some (c ++ fold_right String.append "" (map (inventory_line u) nodes)).
Proof.
  revert w. write_loop nodes; simpl; intros H.
  - split; [reflexivity|]. intros c ->. now rewrite append_empty_r.
  - destruct (IH _ H) as [Hf Hi]. split.
    + rewrite Hf. simpl. now destruct (length nodes).
    + intros c ->. rewrite (Hi _ eq_refl). now rewrite append_assoc.
  - discriminate.
  - destruct (IH _ H) as [Hf Hi]. split.
    + rewrite Hf. reflexivity.
    + intros c ->. rewrite (Hi _ eq_refl). now rewrite append_assoc.
Qed.

Lemma writeNodes_total (nodes : list string) (u : string) (w : World) :
  no_fault (length nodes) (faults w) = true ->
  res (writeNodes nodes u w) = Ret None.
Proof.
  revert w. write_loop nodes; simpl; intros H; auto.
  - apply IH. simpl. now destruct (length nodes).
  - discriminate.
Qed.

Ltac use_writeNodes :=
  match goal with
  | |- context [writeNodes ?n ?u ?W] =>
      let r := fresh "r" in
      let Hr := fresh "Hr" in
      let ev := fresh "ev" in
      let w' := fresh "w'" in
      destruct (writeNodes_res n u W) as [r Hr];
      pose proof (writeNodes_events n u W);
      pose proof (writeNodes_frame n u W);
      pose proof (writeNodes_ok n u W);
      pose proof (writeNodes_total n u W);
      destruct (writeNodes n u W) as [? ev w'];
      cbn [res evs world inventory faults stdin remote] in *; subst
  end.

Lemma createInventoryFile_res (nodes : list string) (u : string) (w : World) :
  exists r, res (createInventoryFile nodes u w) = Ret r.
Proof.
  destruct w as [inv fs sin e]. unfold createInventoryFile, bind.
  destruct fs as [|[err|] fs]; cbn; eauto.
  - use_writeNodes. cbn. eauto.
  - destruct fs as [|[err|] fs]; cbn; eauto; use_writeNodes; cbn; eauto.
Qed.

Lemma createInventoryFile_events (nodes : list string) (u : string) (w : World) :
  forallb file_event (evs (createInventoryFile nodes u w)) = true.
Proof.
  destruct w as [inv fs sin e]. unfold createInventoryFile, bind.
  destruct fs as [|[err|] fs]; cbn; eauto.
  - use_writeNodes. cbn. rewrite forallb_app. cbn. now rewrite H.
  - destruct fs as [|[err|] fs]; cbn; eauto;
      use_writeNodes; cbn; rewrite forallb_app; cbn; now rewrite H.
Qed.

Lemma createInventoryFile_frame (nodes : list string) (u : string) (w : World) :
  stdin (world (createInventoryFile nodes u w)) = stdin w
  /\ remote (world (createInventoryFile nodes u w)) = remote w.
Proof.
  destruct w as [inv fs sin e]. unfold createInventoryFile, bind.
  destruct fs as [|[err|] fs]; cbn; eauto.
  - use_writeNodes. cbn. assumption.
  - destruct fs as [|[err|] fs]; cbn; eauto; use_writeNodes; cbn; assumption.
Qed.

Lemma createInventoryFile_ok (nodes : list string) (u : string) (w : World) :
  res (createInventoryFile nodes u w) = Ret None ->
  inventory (world (createInventoryFile nodes u w)) = Some (inventory_content nodes u)
  /\ faults (world (createInventoryFile nodes u w)) = skipn (2 + length nodes) (faults w)
  /\ created (evs (createInventoryFile nodes u w)) = true.
Proof.
  destruct w as [inv fs sin e]. unfold createInventoryFile, bind, inventory_content.
  destruct fs as [|[err|] fs]; cbn; try discriminate.
  - use_writeNodes. cbn. intros Hr. destruct (H1 Hr) as [Hf Hi].
    rewrite (Hi _ eq_refl), Hf. repeat split. now destruct (length nodes).
  - destruct fs as [|[err|] fs]; cbn; try discriminate.
    + use_writeNodes. cbn. intros Hr. destruct (H1 Hr) as [Hf Hi].
      rewrite (Hi _ eq_refl), Hf. repeat split. now destruct (length nodes).
    + use_writeNodes. cbn. intros Hr. destruct (H1 Hr) as [Hf Hi].
      rewrite (Hi _ eq_refl), Hf. repeat split.
Qed.

Lemma createInventoryFile_total (nodes : list string) (u : string) (w : World) :
  no_fault (2 + length nodes) (faults w) = true ->
  res (createInventoryFile nodes u w) = Ret None.
Proof.
  destruct w as [inv fs sin e]. unfold createInventoryFile, bind.
  destruct fs as [|[err|] fs]; cbn; try discriminate.
  - use_writeNodes. cbn. intros _. apply H2. now destruct (length nodes).
  - destruct fs as [|[err|] fs]; cbn; try discriminate.
    + use_writeNodes. cbn. intros _. apply H2. now destruct (length nodes).
    + use_writeNodes. cbn. intros Hn. auto.
Qed.

(** C5. Whenever [createInventoryFile] succeeds, the file holds exactly the
    header line [[k8s]] followed by one line [<node> ansible_user=<username>]
    per node, in the order of the node list, whatever the file held before;
    it succeeds when no system call on the file fails; for the nodes n1, n2
    and the user alice, without faults, the file holds exactly
    "[k8s]\nn1 ansible_user=alice\nn2 ansible_user=alice\n", whatever it
    held before. *)
Theorem C5_inventory_content (nodes : list string) (ansibleUsername : string) (w : World) :
  (res (createInventoryFile nodes ansibleUsername w) = Ret None ->
   inventory (world (createInventoryFile nodes ansibleUsername w))
   = Some (inventory_content nodes ansibleUsername))
  /\ (no_fault (2 + length nodes) (faults w) = true ->
      res (createInventoryFile nodes ansibleUsername w) = Ret None)
  /\ (forall inv sin e,
         inventory (world (createInventoryFile ["n1"; "n2"] "alice" (mkWorld inv [] sin e)))
         = Some ("[k8s]" ++ nl ++ "n1 ansible_user=alice" ++ nl
                 ++ "n2 ansible_user=alice" ++ nl)).
Proof.
  split; [|split].
  - intros H. now apply createInventoryFile_ok.
  - apply createInventoryFile_total.
  - reflexivity.
Qed.

Ltac run_remove w :=
  let inv := fresh "inv" in
  let fs := fresh "fs" in
  let err := fresh "err" in
  destruct w as [inv fs ? ?]; unfold removeInventoryFile, bind;
  destruct fs as [|[err|] fs]; cbn;
  [ destruct inv
  | idtac
  | destruct inv; [destruct fs as [|[err|] fs]|] ]; cbn.

Lemma removeInventoryFile_res (w : World) :
  exists r, res (removeInventoryFile w) = Ret r.
Proof. run_remove w; eauto. Qed.

Lemma removeInventoryFile_quiet (w : World) :
  removals (evs (removeInventoryFile w)) = 1
  /\ execs (evs (removeInventoryFile w)) = []
  /\ probes (evs (removeInventoryFile w)) = []
  /\ rendered (evs (removeInventoryFile w)) = []
  /\ (forall s, printed (evs (removeInventoryFile w)) s = false)
  /\ created (evs (removeInventoryFile w)) = false
  /\ stdin (world (removeInventoryFile w)) = stdin w
  /\ remote (world (removeInventoryFile w)) = remote w.
Proof. run_remove w; repeat split. Qed.

Lemma removeInventoryFile_absent (w : World) :
  inventory w = None ->
  res (removeInventoryFile w) = Ret None
  /\ inventory (world (removeInventoryFile w)) = None
  /\ existsb (fun e => match e with ERemove _ => true | _ => false end)
             (evs (removeInventoryFile w)) = false.
Proof. run_remove w; intros H; try discriminate H; repeat split; assumption. Qed.

Lemma removeInventoryFile_present (w : World) (c : string) :
  inventory w = Some c ->
  no_fault 2 (faults w) = true ->
  res (removeInventoryFile w) = Ret None
  /\ inventory (world (removeInventoryFile w)) = None.
Proof. run_remove w; intros H Hf; try discriminate H; try discriminate Hf; repeat split. Qed.

(** C9. After a successful [createInventoryFile], an immediate
    [removeInventoryFile] whose two system calls ([os.Stat], [os.Remove])
    behave normally returns no error and leaves no file; and when the file
    does not exist, [removeInventoryFile] returns no error, does not even
    attempt [os.Remove], and leaves the file absent, so that calling it
    again is again a successful no-op. *)
Theorem C9_create_remove (nodes : list string) (ansibleUsername : string) (w : World) :
  (res (createInventoryFile nodes ansibleUsername w) = Ret None ->
   no_fault 2 (faults (world (createInventoryFile nodes ansibleUsername w))) = true ->
   res (removeInventoryFile (world (createInventoryFile nodes ansibleUsername w))) = Ret None
   /\ inventory (world (removeInventoryFile
                          (world (createInventoryFile nodes ansibleUsername w)))) = None)
  /\ (inventory w = None ->
      res (removeInventoryFile w) = Ret None
      /\ inventory (world (removeInventoryFile w)) = None
      /\ existsb (fun e => match e with ERemove _ => true | _ => false end)
                 (evs (removeInventoryFile w)) = false
      /\ res (removeInventoryFile (world (removeInventoryFile w))) = Ret None).
Proof.
  split.
  - intros Hc Hf. apply createInventoryFile_ok in Hc. destruct Hc as [Hi _].
    eapply removeInventoryFile_present; eauto.
  - intros Hi. destruct (removeInventoryFile_absent w Hi) as [H1 [H2 H3]].
    repeat split; auto. now apply removeInventoryFile_absent.
Qed.

(** ** The probe loops *)

Lemma thread_length cmds inv e : length (thread cmds inv e) = length cmds.
Proof. revert e. induction cmds; simpl; auto. Qed.

Lemma thread_fst cmds inv e : map fst (thread cmds inv e) = cmds.
Proof. revert e. induction cmds; simpl; intros; f_equal; auto. Qed.

Lemma thread_app c1 c2 inv e :
  thread (c1 ++ c2) inv e = (thread c1 inv e ++ thread c2 inv (thread_end c1 inv e))%list.
Proof. revert e. induction c1; simpl; intros; f_equal; auto. Qed.

Lemma thread_end_app c1 c2 inv e :
  thread_end (c1 ++ c2) inv e = thread_end c2 inv (thread_end c1 inv e).
Proof. revert e. induction c1; simpl; intros; auto. Qed.

Lemma execs_exec_events t : execs (map exec_event t) = t.
Proof.
  induction t as [|[args [out err]] t IH]; simpl; [reflexivity|]. now rewrite IH.
Qed.

Lemma exec_events_quiet t :
  removals (map exec_event t) = 0 /\ rendered (map exec_event t) = []
  /\ created (map exec_event t) = false
  /\ forall s, printed (map exec_event t) s = false.
Proof.
  induction t as [|x t [H1 [H2 [H3 H4]]]]; simpl; auto.
Qed.

Lemma hosting_rows_app l1 l2 :
  hosting_rows (l1 ++ l2) = (hosting_rows l1 ++ hosting_rows l2)%list.
Proof. unfold hosting_rows. now rewrite filter_app, map_app. Qed.

Lemma combine_app {A B : Type} (l1 l2 : list A) (r1 r2 : list B) :
  length l1 = length r1 ->
  combine (l1 ++ l2) (r1 ++ r2) = (combine l1 r1 ++ combine l2 r2)%list.
Proof.
  revert r1. induction l1 as [|a l1 IH]; intros [|b r1] H; simpl in *;
    try discriminate; [reflexivity|].
  f_equal. apply IH. now injection H.
Qed.

Lemma probeIPs_eq node itf u lbIPs acc (w : World) :
  let t := thread (map (probe_args node u itf) lbIPs) (inventory w) (remote w) in
  probeIPs node itf u lbIPs acc w
  = mkOut (Ret (acc ++ hosting_rows (combine (map (pair node) lbIPs) (map snd t)))%list)
          (map exec_event t)
          (mkWorld (inventory w) (faults w) (stdin w)
                   (thread_end (map (probe_args node u itf) lbIPs) (inventory w) (remote w))).
Proof.
  revert acc w. induction lbIPs as [|ip lbIPs IH]; intros acc [inv fs sin e]; cbn zeta.
  - simpl. unfold ret, hosting_rows. simpl. now rewrite app_nil_r.
  - cbn [probeIPs map thread thread_end inventory faults stdin remote].
    unfold bind, CombinedOutput. cbn [inventory faults stdin remote].
    destruct (ansible (probe_args node u itf ip) inv e) as [[out err] e'] eqn:Hrun.
    rewrite IH. cbn. unfold hosting_rows, hosting. cbn.
    destruct (isErr err); cbn; [destruct (Contains out "FAILED"); cbn|];
      rewrite <- ?app_assoc; reflexivity.
Qed.

Lemma probeNodes_eq nodes itf u lbIPs acc (w : World) :
  let t := thread (sweep nodes itf u lbIPs) (inventory w) (remote w) in
  probeNodes nodes itf u lbIPs acc w
  = mkOut (Ret (acc ++ hosting_rows (combine (pairs nodes lbIPs) (map snd t)))%list)
          (map exec_event t)
          (mkWorld (inventory w) (faults w) (stdin w)
                   (thread_end (sweep nodes itf u lbIPs) (inventory w) (remote w))).
Proof.
  revert acc w. induction nodes as [|node nodes IH]; intros acc [inv fs sin e]; cbn zeta.
  - simpl. unfold ret, hosting_rows. simpl. now rewrite app_nil_r.
  - cbn [probeNodes]. unfold bind. rewrite probeIPs_eq. cbn zeta. rewrite IH.
    cbn [inventory faults stdin remote sweep pairs flat_map].
    rewrite thread_app, thread_end_app, !map_app, combine_app, hosting_rows_app.
    + now rewrite app_assoc.
    + now rewrite !length_map, thread_length, length_map.
Qed.

Lemma sweep_length nodes itf u lbIPs :
  length (sweep nodes itf u lbIPs) = length nodes * length lbIPs.
Proof.
  unfold sweep. induction nodes as [|node nodes IH]; simpl; [reflexivity|].
  now rewrite length_app, length_map, IH.
Qed.

Lemma pairs_length nodes lbIPs : length (pairs nodes lbIPs) = length nodes * length lbIPs.
Proof.
  unfold pairs. induction nodes as [|node nodes IH]; simpl; [reflexivity|].
  now rewrite length_app, length_map, IH.
Qed.

Lemma fold_left_Append (l : list (list string)) (t : Table) :
  fold_left Append l t = mkTable (header t) (rows t ++ l).
Proof.
  revert t. induction l as [|row l IH]; intros [h r]; simpl.
  - now rewrite app_nil_r.
  - rewrite IH. simpl. now rewrite <- app_assoc.
Qed.

Lemma runARPCommandOnAllNodes_eq nodes itf lbIPs u (w : World) :
  let t := thread (sweep nodes itf u lbIPs) (inventory w) (remote w) in
  runARPCommandOnAllNodes nodes itf lbIPs u w
  = mkOut (Ret tt)
          (map exec_event t
           ++ [EPrint (nl ++ "Here is your result:" ++ nl);
               ERender (mkTable ["Node Name"; "LoadBalancer IP"]
                          (hosting_rows (combine (pairs nodes lbIPs) (map snd t))))])
          (mkWorld (inventory w) (faults w) (stdin w)
                   (thread_end (sweep nodes itf u lbIPs) (inventory w) (remote w))).
Proof.
  cbn zeta. unfold runARPCommandOnAllNodes, bind. rewrite probeNodes_eq. cbn zeta.
  unfold Print, emit. rewrite fold_left_Append. reflexivity.
Qed.

Lemma sweep_probes nodes itf u lbIPs :
  Forall (fun c => HasPrefix (last c EmptyString) "arping " = true) (sweep nodes itf u lbIPs).
Proof.
  unfold sweep. apply Forall_forall. intros c Hc.
  apply in_flat_map in Hc. destruct Hc as [node [_ Hc]].
  apply in_map_iff in Hc. destruct Hc as [ip [<- _]]. reflexivity.
Qed.

Lemma thread_probes cmds inv e :
  Forall (fun c => HasPrefix (last c EmptyString) "arping " = true) cmds ->
  probes (map exec_event (thread cmds inv e)) = map exec_event (thread cmds inv e).
Proof.
  intros H. revert e. induction H as [|c cmds Hc _ IH]; intros e; [reflexivity|].
  cbn [thread map]. unfold probes in *. cbn [filter is_probe exec_event fst].
  rewrite Hc. now rewrite IH.
Qed.

Lemma hosting_iff (r : string * option error) :
  hosting r = true <-> snd r <> None /\ Contains (fst r) "FAILED" = true.
Proof.
  unfold hosting. destruct r as [out [e|]]; simpl; split.
  - intros H. split; [discriminate|assumption].
  - tauto.
  - discriminate.
  - intros [H _]. now elim H.
Qed.

Lemma hosting_rows_In outcomes row :
  In row (hosting_rows outcomes) <->
  exists node ip out err,
    In ((node, ip), (out, err)) outcomes /\ row = [node; ip]
    /\ err <> None /\ Contains out "FAILED" = true.
Proof.
  unfold hosting_rows. rewrite in_map_iff. split.
  - intros [[[node ip] [out err]] [Hrow Hin]]. apply filter_In in Hin.
    destruct Hin as [Hin Hh]. apply hosting_iff in Hh. simpl in *.
    exists node, ip, out, err. intuition.
  - intros [node [ip [out [err [Hin [-> [He Hc]]]]]]].
    exists ((node, ip), (out, err)). split; [reflexivity|].
    apply filter_In. split; [assumption|]. apply hosting_iff. simpl. auto.
Qed.

(** C1. The sweep records a pair as Hosting exactly when its probe ended in
    a transport error and the combined output contains "FAILED": the result
    set is the list of the pairs so classified, in probe order.  Every other
    probe, failed or not, adds nothing; the loops never leave the run and
    print nothing: all pairs are probed and the function returns. *)
Theorem C1_hosting_classification (nodes : list string) (arpInterface : string)
        (lbIPs : list string) (ansibleUsername : string) (w : World) :
  let o := probeNodes nodes arpInterface ansibleUsername lbIPs [] w in
  let outcomes := combine (pairs nodes lbIPs) (map snd (execs (evs o))) in
  res o = Ret (hosting_rows outcomes)
  /\ length outcomes = length nodes * length lbIPs
  /\ (forall row,
         In row (hosting_rows outcomes) <->
         exists node ip out err,
           In ((node, ip), (out, err)) outcomes /\ row = [node; ip]
           /\ err <> None /\ Contains out "FAILED" = true)
  /\ (forall node ip,
         let r := fst (ansible (probe_args node ansibleUsername arpInterface ip)
                               (inventory w) (remote w)) in
         res (probeNodes [node] arpInterface ansibleUsername [ip] [] w)
         = Ret (if isErr (snd r) && Contains (fst r) "FAILED" then [[node; ip]] else []))
  /\ (forall s, printed (evs o) s = false)
  /\ res (runARPCommandOnAllNodes nodes arpInterface lbIPs ansibleUsername w) = Ret tt.
Proof.
  cbn zeta. rewrite probeNodes_eq, runARPCommandOnAllNodes_eq. cbn zeta.
  cbn [res evs]. rewrite execs_exec_events.
  split; [reflexivity|]. split.
  { rewrite length_combine, pairs_length, length_map, thread_length, sweep_length.
    apply Nat.min_id. }
  split; [intros row; apply hosting_rows_In|].
  split.
  { intros node ip. rewrite probeNodes_eq. cbn.
    destruct (ansible _ _ _) as [[out err] e']. cbn. unfold hosting_rows, hosting. cbn.
    destruct (isErr err && Contains out "FAILED"); reflexivity. }
  split; [apply exec_events_quiet|reflexivity].
Qed.

(** C2. A sweep runs exactly one remote command per (node, address) pair and
    nothing else remotely: |N| * |C| commands, node by node (outer loop) and
    address by address (inner loop), each run in the remote state left by
    the one before it, each an [arping] on the interface to the address with
    a packet count of one, targeted at its node as the given user. *)
Theorem C2_probe_sequence (nodes : list string) (arpInterface : string)
        (lbIPs : list string) (ansibleUsername : string) (w : World) :
  let o := runARPCommandOnAllNodes nodes arpInterface lbIPs ansibleUsername w in
  map fst (execs (evs o))
  = flat_map (fun node =>
                map (fun ip =>
                       ["ansible"; "-i"; "k8s.inventory"; node; "-u"; ansibleUsername;
                        "-m"; "shell"; "-a";
                        "arping -q -I " ++ arpInterface ++ " " ++ ip ++ " -c 1"])
                    lbIPs) nodes
  /\ length (execs (evs o)) = length nodes * length lbIPs
  /\ execs (evs o)
     = thread (sweep nodes arpInterface ansibleUsername lbIPs) (inventory w) (remote w)
  /\ probes (evs o) = map exec_event (execs (evs o)).
Proof.
  cbn zeta. rewrite runARPCommandOnAllNodes_eq. cbn zeta. cbn [res evs].
  rewrite execs_app, probes_app, execs_exec_events. cbn [execs probes filter is_probe].
  rewrite !app_nil_r, thread_fst, thread_length, sweep_length.
  repeat split. apply thread_probes, sweep_probes.
Qed.

(** C8. The table rendered by a sweep has exactly the rows of the pairs
    classified Hosting, in probe order (node, then address): classification
    keeps the order of the outcomes and drops or merges nothing, so a pair
    probed twice appears twice.  For (n1,7.1.2.3) Hosting, (n1,7.5.5.5)
    NotHosting, (n2,7.1.2.3) Hosting the rows are (n1,7.1.2.3), (n2,7.1.2.3).
    A sweep without any Hosting outcome still renders the table, with zero
    rows, and returns normally. *)
Theorem C8_rendered_rows (nodes : list string) (arpInterface : string)
        (lbIPs : list string) (ansibleUsername : string) (w : World) :
  let o := runARPCommandOnAllNodes nodes arpInterface lbIPs ansibleUsername w in
  let outcomes := combine (pairs nodes lbIPs) (map snd (execs (evs o))) in
  res o = Ret tt
  /\ rendered (evs o)
     = [mkTable ["Node Name"; "LoadBalancer IP"] (hosting_rows outcomes)]
  /\ (forall l1 l2, hosting_rows (l1 ++ l2) = (hosting_rows l1 ++ hosting_rows l2)%list)
  /\ (forall node ip r,
         hosting_rows [((node, ip), r)] = if hosting r then [[node; ip]] else [])
  /\ hosting_rows [(("n1", "7.1.2.3"), ("n1 | FAILED | rc=2 >>", Some "exit status 2"));
                   (("n1", "7.5.5.5"), ("n1 | CHANGED | rc=0 >>", None));
                   (("n2", "7.1.2.3"), ("n2 | FAILED | rc=2 >>", Some "exit status 2"))]
     = [["n1"; "7.1.2.3"]; ["n2"; "7.1.2.3"]]
  /\ (forallb (fun x => negb (hosting (snd x))) outcomes = true ->
      rendered (evs o) = [mkTable ["Node Name"; "LoadBalancer IP"] []]).
Proof.
  cbn zeta. rewrite runARPCommandOnAllNodes_eq. cbn zeta. cbn [res evs].
  rewrite execs_app, rendered_app, execs_exec_events. cbn [execs rendered].
  rewrite app_nil_r.
  assert (Hr : rendered (map exec_event
                 (thread (sweep nodes arpInterface ansibleUsername lbIPs)
                         (inventory w) (remote w))) = []) by apply exec_events_quiet.
  rewrite Hr. cbn [app].
  split; [reflexivity|]. split; [reflexivity|].
  split; [apply hosting_rows_app|].
  split; [intros node ip r; unfold hosting_rows; cbn; now destruct (hosting r)|].
  split; [reflexivity|].
  intros H. do 2 f_equal. unfold hosting_rows.
  induction (combine _ _) as [|x l IH]; [reflexivity|].
  cbn in H |- *. apply andb_prop in H. destruct H as [Hx Hl].
  destruct (hosting (snd x)); [discriminate|]. now apply IH.
Qed.

(** ** Further properties of the inventory artifact *)

Lemma writeNodes_first_fault (nodes : list string) (u : string) (w : World) :
  res (writeNodes nodes u w) = Ret (first_fault (length nodes) (faults w)).
Proof.
  revert w. write_loop nodes; simpl; auto.
  rewrite IH. simpl. now destruct (length nodes).
Qed.

Lemma createInventoryFile_first_fault (nodes : list string) (u : string) (w : World) :
  res (createInventoryFile nodes u w) = Ret (first_fault (2 + length nodes) (faults w)).
Proof.
  destruct w as [inv fs sin e]. unfold createInventoryFile, bind.
  destruct fs as [|[err|] fs]; cbn; try reflexivity;
    [|destruct fs as [|[err|] fs]; cbn; try reflexivity];
    match goal with
    | |- context [writeNodes ?n ?u ?W] =>
        let Hf := fresh "Hf" in
        pose proof (writeNodes_first_fault n u W) as Hf;
        destruct (writeNodes n u W) as [r ev w']; cbn in Hf; subst r; cbn
    end; try reflexivity; now destruct (length nodes).
Qed.

(** X1. [createInventoryFile] returns the error of the first of its system
    calls that fails ([os.Create], the header write, then one write per
    node, in this order) and nil when none of them fails; later pending
    faults play no part. *)
Theorem X1_create_error (nodes : list string) (ansibleUsername : string) (w : World) :
  res (createInventoryFile nodes ansibleUsername w)
  = Ret (first_fault (2 + length nodes) (faults w)).
Proof. apply createInventoryFile_first_fault. Qed.

Lemma writeNodes_writes (nodes : list string) (u : string) (w : World) :
  forallb is_write (evs (writeNodes nodes u w)) = true
  /\ length (evs (writeNodes nodes u w)) <= length nodes.
Proof.
  revert w. write_loop nodes; simpl; auto.
  - destruct (IH (mkWorld (match inv with Some c => Some (c ++ inventory_line u node)
                                     | None => None end) [] stdin0 remote0)) as [H1 H2].
    split; [assumption|]. now apply le_n_S.
  - split; [reflexivity|]. apply le_n_S, Nat.le_0_l.
  - destruct (IH (mkWorld (match inv with Some c => Some (c ++ inventory_line u node)
                                     | None => None end) fs stdin0 remote0)) as [H1 H2].
    split; [assumption|]. now apply le_n_S.
Qed.

(** X2. [createInventoryFile] brackets its writes: when [os.Create] fails
    nothing else is done and the file is as before; when it succeeds, the
    trace is the creation, then only writes (at most the header and one per
    node), then exactly one [Close] as the last event, on success and on
    failure alike. *)
Theorem X2_create_bracket (nodes : list string) (ansibleUsername : string) (w : World) :
  (forall e, hd None (faults w) = Some e ->
             evs (createInventoryFile nodes ansibleUsername w) = [ECreate (Some e)]
             /\ inventory (world (createInventoryFile nodes ansibleUsername w)) = inventory w)
  /\ (hd None (faults w) = None ->
      exists writes,
        evs (createInventoryFile nodes ansibleUsername w)
        = (ECreate None :: writes ++ [EClose])%list
        /\ forallb is_write writes = true
        /\ length writes <= 1 + length nodes).
Proof.
  destruct w as [inv fs sin e]. unfold createInventoryFile, bind.
  destruct fs as [|[err|] fs]; cbn;
    (split; [intros e0 H; try discriminate H|intros H; try discriminate H]);
    try (injection H as <-; split; reflexivity);
    try (destruct fs as [|[err|] fs]; cbn);
    try (match goal with
         | |- context [writeNodes ?n ?u ?W] =>
             let r := fresh "r" in
             let Hr := fresh "Hr" in
             destruct (writeNodes_writes n u W) as [H1 H2];
             destruct (writeNodes_res n u W) as [r Hr];
             destruct (writeNodes n u W) as [? ev w']; cbn in *; subst
         end).
  all: cbn [evs].
  all: match goal with
    | |- exists _, (ECreate None :: ?x :: ?ev ++ [EClose])%list = _ /\ _ => exists (x :: ev)
    | |- exists _, [ECreate None; ?x; EClose] = _ /\ _ => exists [x]
    end;
    (split; [reflexivity|]); cbn; split; auto using le_n_S, Nat.le_0_l.
Qed.




(** X4. [removeInventoryFile] reports an error only when [os.Remove] itself
    failed, and then the file is still there, unchanged.  A failing
    [os.Stat] on an existing file is taken for "no file": nil is returned,
    [os.Remove] is not attempted and the file stays.  In every case the file
    is either as before or gone. *)
Theorem X4_remove_errors (w : World) :
  (forall e,
      res (removeInventoryFile w) = Ret (Some e) ->
      inventory (world (removeInventoryFile w)) = inventory w
      /\ inventory w <> None
      /\ evs (removeInventoryFile w)
         = [EInvoke "removeInventoryFile"; EStat None; ERemove (Some e)])
  /\ (forall e c,
         hd None (faults w) = Some e ->
         inventory w = Some c ->
         res (removeInventoryFile w) = Ret None
         /\ inventory (world (removeInventoryFile w)) = Some c
         /\ evs (removeInventoryFile w)
            = [EInvoke "removeInventoryFile"; EStat (Some e)])
  /\ (inventory (world (removeInventoryFile w)) = inventory w
      \/ inventory (world (removeInventoryFile w)) = None).
Proof.
  run_remove w; (split; [|split]);
    try (intros e0 H; try discriminate H; injection H as <-; repeat split; discriminate);
    try (intros e0 c H Hc; try discriminate H; try discriminate Hc;
         injection H as <-; repeat split; assumption);
    auto.
Qed.

(** ** The candidate list typed in by the user *)

Lemma Split_nonempty (s : string) (sep : ascii) : Split s sep <> [].
Proof.
  destruct s as [|c s]; simpl; [discriminate|].
  destruct (Ascii.eqb c sep); [discriminate|].
  destruct (Split s sep); discriminate.
Qed.

Lemma Split_join (s : string) (sep : ascii) :
  String.concat (String sep EmptyString) (Split s sep) = s.
Proof.
  induction s as [|c s IH]; simpl; [reflexivity|].
  destruct (Ascii.eqb c sep) eqn:Hc.
  - apply Ascii.eqb_eq in Hc. subst c.
    destruct (Split s sep) as [|hd tl] eqn:Hs; [now elim (Split_nonempty s sep)|].
    simpl in *. now rewrite IH.
  - destruct (Split s sep) as [|hd tl] eqn:Hs; [now elim (Split_nonempty s sep)|].
    simpl in *. destruct tl; simpl in *; now rewrite <- IH.
Qed.

Lemma Split_length (s : string) (sep : ascii) :
  length (Split s sep) = S (count_occ ascii_dec (list_ascii_of_string s) sep).
Proof.
  induction s as [|c s IH]; simpl; [reflexivity|].
  destruct (Ascii.eqb c sep) eqn:Hc.
  - apply Ascii.eqb_eq in Hc. subst c. simpl. rewrite IH.
    destruct (ascii_dec sep sep) as [_|n]; [reflexivity|now elim n].
  - apply Ascii.eqb_neq in Hc.
    destruct (ascii_dec c sep) as [Heq|_]; [now elim Hc|].
    destruct (Split s sep) as [|hd tl] eqn:Hs; [now elim (Split_nonempty s sep)|].
    simpl in *. assumption.
Qed.

Lemma Split_no_sep (s : string) (sep : ascii) :
  Forall (fun part => ~ In sep (list_ascii_of_string part)) (Split s sep).
Proof.
  induction s as [|c s IH]; simpl.
  - constructor; [intros []|constructor].
  - destruct (Ascii.eqb c sep) eqn:Hc.
    + constructor; [intros []|assumption].
    + apply Ascii.eqb_neq in Hc.
      destruct (Split s sep) as [|hd tl] eqn:Hs; [now elim (Split_nonempty s sep)|].
      inversion IH as [|? ? Hhd Htl]; subst.
      constructor; [|assumption].
      simpl. intros [H|H]; [now elim Hc|now elim Hhd].
Qed.

(** X5. [getSpecificLoadBalancerIPs] prompts, consumes exactly one line of
    input and returns the comma-separated parts of the trimmed line: the
    parts joined by commas give the trimmed line back, there is one part
    more than there are commas (so the list is never empty: an empty line
    gives the one empty address), and no part contains a comma.  The file
    and the remote hosts are left alone. *)
Theorem X5_typed_candidates (w : World) :
  let line := TrimSpace (fst (readLine (stdin w))) in
  let o := getSpecificLoadBalancerIPs w in
  exists lbIPs,
    res o = Ret lbIPs
    /\ String.concat "," lbIPs = line
    /\ length lbIPs = S (count_occ ascii_dec (list_ascii_of_string line) ","%char)
    /\ Forall (fun ip => ~ In ","%char (list_ascii_of_string ip)) lbIPs
    /\ evs o = [EPrint (nl ++ "Enter LB IP(s) separated by comma: ")]
    /\ world o = mkWorld (inventory w) (faults w) (snd (readLine (stdin w))) (remote w).
Proof.
  cbn zeta. unfold getSpecificLoadBalancerIPs, bind, Print, emit, ReadString, ret.
  destruct (readLine (stdin w)) as [line rest]. cbn [fst snd].
  exists (Split (TrimSpace line) ","%char).
  repeat split.
  - apply Split_join.
  - apply Split_length.
  - apply Split_no_sep.
Qed.

(** X6. A sweep touches neither the inventory file nor the pending faults
    nor standard input: it only moves the remote hosts through its command
    lines, and its trace holds no event on the file and no removal.  With an
    empty node list or an empty candidate list it runs no remote command at
    all and still renders the (empty) table. *)
Theorem X6_sweep_frame (nodes : list string) (arpInterface : string) (lbIPs : list string)
        (ansibleUsername : string) (w : World) :
  let o := runARPCommandOnAllNodes nodes arpInterface lbIPs ansibleUsername w in
  world o = mkWorld (inventory w) (faults w) (stdin w)
                    (thread_end (sweep nodes arpInterface ansibleUsername lbIPs)
                                (inventory w) (remote w))
  /\ forallb (fun e => negb (file_event e || is_removal e)) (evs o) = true
  /\ (nodes = [] \/ lbIPs = [] ->
      execs (evs o) = []
      /\ remote (world o) = remote w
      /\ rendered (evs o) = [mkTable ["Node Name"; "LoadBalancer IP"] []]).
Proof.
  cbn zeta. rewrite runARPCommandOnAllNodes_eq. cbn zeta. cbn [world evs remote].
  split; [reflexivity|]. split.
  - rewrite forallb_app. apply andb_true_intro. split; [|reflexivity].
    induction (thread _ _ _) as [|x t IH]; [reflexivity|exact IH].
  - intros [-> | ->].
    + cbn. repeat split.
    + assert (Hs : sweep nodes arpInterface ansibleUsername [] = []).
      { unfold sweep. induction nodes; simpl; auto. }
      assert (Hp : pairs nodes [] = []).
      { unfold pairs. induction nodes; simpl; auto. }
      rewrite Hs, Hp. cbn. repeat split.
Qed.

(** ** The interface name *)

Lemma trimLeft_incl (rv : bool) (n : nat) :
  forall l, length l <= n -> incl (trimLeft rv l) l.
Proof.
  induction n as [|n IH]; intros l Hn.
  - destruct l; [apply incl_refl|inversion Hn].
  - destruct l as [|a l1]; [apply incl_refl|].
    simpl in Hn. apply le_S_n in Hn. cbn [trimLeft].
    destruct (asciiSpace a); [apply incl_tl, IH, Hn|].
    destruct l1 as [|b l2]; [apply incl_refl|].
    assert (H2 : length l2 <= n) by (simpl in Hn; apply Nat.le_trans with (S (length l2)); auto).
    destruct (if rv then space2 b a else space2 a b);
      [do 2 apply incl_tl; apply IH, H2|].
    destruct l2 as [|c l3]; [apply incl_refl|].
    assert (H3 : length l3 <= n) by (simpl in H2; apply Nat.le_trans with (S (length l3)); auto).
    destruct (if rv then space3 c b a else space3 a b c);
      [do 3 apply incl_tl; apply IH, H3|apply incl_refl].
Qed.

Lemma TrimSpace_incl (s : string) :
  incl (list_ascii_of_string (TrimSpace s)) (list_ascii_of_string s).
Proof.
  unfold TrimSpace. rewrite list_ascii_of_string_of_list_ascii.
  intros c Hc. apply in_rev in Hc.
  apply (trimLeft_incl true _ _ (le_n _)) in Hc. apply in_rev in Hc.
  apply (trimLeft_incl false _ _ (le_n _)) in Hc. exact Hc.
Qed.

(** X7. The interface name that the resolver of [get_loadBalancerIP.go]
    returns never contains a line feed: it is taken from a single line of
    the output (or is empty), so the probe command built from it is one
    line. *)
Theorem X7_interface_single_line (w : World) :
  exists arpInterface,
    res (getInterfaceNameStartingWithSeven Colored w) = Ret arpInterface
    /\ ~ In "010"%char (list_ascii_of_string arpInterface).
Proof.
  unfold getInterfaceNameStartingWithSeven, bind, CombinedOutput, Print, emit, ret.
  destruct (ansible (discover_args Colored) (inventory w) (remote w)) as [[out [err|]] e'];
    cbn -[Nat.leb].
  - eexists. split; [reflexivity|intros []].
  - destruct (3 <=? length (Split (TrimSpace out) "010"))%nat; cbn;
      (eexists; split; [reflexivity|]); [|intros []].
    intros Hin. apply TrimSpace_incl in Hin.
    pose proof (Split_no_sep (TrimSpace out) "010"%char) as Hall.
    rewrite Forall_forall in Hall.
    destruct (nth_in_or_default 2 (Split (TrimSpace out) "010"%char) EmptyString) as [Hn|Hn].
    + exact (Hall _ Hn Hin).
    + rewrite Hn in Hin. exact Hin.
Qed.

(** ** The lines of the inventory artifact *)

Lemma list_ascii_of_string_app (a b : string) :
  list_ascii_of_string (a ++ b) = (list_ascii_of_string a ++ list_ascii_of_string b)%list.
Proof. induction a as [|c a IH]; simpl; [reflexivity|now rewrite IH]. Qed.

Lemma Split_app_sep (a rest : string) (sep : ascii) :
  ~ In sep (list_ascii_of_string a) ->
  Split (a ++ String sep rest) sep = a :: Split rest sep.
Proof.
  induction a as [|c a IH]; simpl; intros Hn.
  - now rewrite Ascii.eqb_refl.
  - destruct (Ascii.eqb c sep) eqn:Hc.
    + apply Ascii.eqb_eq in Hc. elim Hn. now left.
    + rewrite IH; [reflexivity|]. intros H. apply Hn. now right.
Qed.

Lemma inventory_lines (nodes : list string) (u : string) :
  Forall (fun node => ~ In "010"%char (list_ascii_of_string node)) nodes ->
  ~ In "010"%char (list_ascii_of_string u) ->
  Split (fold_right String.append "" (map (inventory_line u) nodes)) "010"%char
  = (map (fun node => (node ++ " ansible_user=" ++ u)%string) nodes ++ [EmptyString])%list.
Proof.
  intros Hnodes Hu. induction Hnodes as [|node nodes Hnode _ IH]; [reflexivity|].
  cbn [map fold_right app]. unfold inventory_line at 1.
  replace ((node ++ " ansible_user=" ++ u ++ nl)
           ++ fold_right String.append "" (map (inventory_line u) nodes))
    with ((node ++ " ansible_user=" ++ u)
          ++ String "010"%char (fold_right String.append "" (map (inventory_line u) nodes))).
  - rewrite Split_app_sep, IH; [reflexivity|].
    rewrite !list_ascii_of_string_app, !in_app_iff. simpl.
    intros [H|[H|H]]; [now elim Hnode| |now elim Hu].
    repeat (destruct H as [H|H]; [discriminate H|]). exact H.
  - unfold nl. rewrite !append_assoc. reflexivity.
Qed.

(** X15. When no node name and not the user name contains a line feed, the
    lines of a successfully written inventory are exactly: the header
    [[k8s]], the record [<node> ansible_user=<user>] of every node in the
    order of the list, and nothing after the last line feed. *)
Theorem X15_inventory_lines (nodes : list string) (ansibleUsername : string) (w : World) :
  Forall (fun node => ~ In "010"%char (list_ascii_of_string node)) nodes ->
  ~ In "010"%char (list_ascii_of_string ansibleUsername) ->
  res (createInventoryFile nodes ansibleUsername w) = Ret None ->
  exists content,
    inventory (world (createInventoryFile nodes ansibleUsername w)) = Some content
    /\ Split content "010"%char
       = ("[k8s]" :: map (fun node => (node ++ " ansible_user=" ++ ansibleUsername)%string)
                             nodes
                  ++ [EmptyString])%list.
Proof.
  intros Hnodes Hu Hres. apply createInventoryFile_ok in Hres. destruct Hres as [Hi _].
  eexists. split; [exact Hi|]. unfold inventory_content, nl.
  change ("[k8s]" ++ String "010"%char ""
          ++ fold_right String.append "" (map (inventory_line ansibleUsername) nodes))
    with ("[k8s]" ++ String "010"%char
            (fold_right String.append "" (map (inventory_line ansibleUsername) nodes))).
  rewrite Split_app_sep, inventory_lines; auto.
  simpl. intros H. repeat (destruct H as [H|H]; [discriminate H|]). exact H.
Qed.

(** X16. Interface discovery runs exactly one remote command, the discovery
    command line, always returns, and changes nothing but the state of the
    remote hosts; when the transport reports no error it prints nothing. *)
Theorem X16_discovery_frame (v : Variant) (w : World) :
  let r := ansible (discover_args v) (inventory w) (remote w) in
  let o := getInterfaceNameStartingWithSeven v w in
  (exists arpInterface, res o = Ret arpInterface)
  /\ execs (evs o) = [(discover_args v, fst r)]
  /\ world o = mkWorld (inventory w) (faults w) (stdin w) (snd r)
  /\ (snd (fst r) = None -> evs o = [EExec (discover_args v) (fst (fst r)) None]).
Proof.
  cbn zeta. unfold getInterfaceNameStartingWithSeven, bind, CombinedOutput, Print, emit, ret.
  destruct (ansible (discover_args v) (inventory w) (remote w)) as [[out [err|]] e'];
    cbn -[Nat.leb].
  - repeat split; eauto. discriminate.
  - destruct v; [destruct (3 <=? length (Split (TrimSpace out) "010"))%nat|];
      cbn; repeat split; eauto.
Qed.

(** ** Whole runs *)

Lemma after_removal_app0 l1 l2 :
  removals l1 = 0 -> after_removal (l1 ++ l2) = after_removal l2.
Proof.
  induction l1 as [|e l1 IH]; simpl; [reflexivity|].
  destruct (is_removal e); [discriminate|assumption].
Qed.

Lemma after_removal_app1 l1 l2 :
  removals l1 = 1 -> after_removal (l1 ++ l2) = (after_removal l1 ++ l2)%list.
Proof.
  induction l1 as [|e l1 IH]; simpl; [discriminate|].
  destruct (is_removal e); [reflexivity|assumption].
Qed.

Lemma removeInventoryFile_last (w : World) :
  execs (after_removal (evs (removeInventoryFile w))) = []
  /\ rendered (after_removal (evs (removeInventoryFile w))) = [].
Proof. run_remove w; split; reflexivity. Qed.

Lemma createInventoryFile_quiet (nodes : list string) (u : string) (w : World) :
  execs (evs (createInventoryFile nodes u w)) = []
  /\ probes (evs (createInventoryFile nodes u w)) = []
  /\ removals (evs (createInventoryFile nodes u w)) = 0
  /\ rendered (evs (createInventoryFile nodes u w)) = []
  /\ forall s, printed (evs (createInventoryFile nodes u w)) s = false.
Proof. apply file_events_quiet, createInventoryFile_events. Qed.



Local Arguments String.append : simpl never.
Local Arguments createInventoryFile : simpl never.
Local Arguments removeInventoryFile : simpl never.
Local Arguments runARPCommandOnAllNodes : simpl never.
Local Arguments TrimSpace : simpl never.
Local Arguments Split : simpl never.
Local Arguments collectServices : simpl never.
Local Arguments getAllNodes : simpl never.
Local Arguments readLine : simpl never.
Local Arguments Nat.leb : simpl never.

(** One step of a run: the next call whose outcome is not yet known is
    split into its cases. *)
Ltac use_create n u W :=
  let r := fresh "r" in
  let Hr := fresh "Hr" in
  let ev := fresh "ev" in
  destruct (createInventoryFile_res n u W) as [r Hr];
  destruct (createInventoryFile_quiet n u W) as (? & ? & ? & ? & ?);
  destruct (createInventoryFile_frame n u W) as [? ?];
  pose proof (createInventoryFile_ok n u W);
  pose proof (createInventoryFile_total n u W);
  destruct (createInventoryFile n u W) as [? ev [? ? ? ?]];
  cbn [res evs world inventory faults stdin remote] in *; subst;
  destruct r.

Ltac use_remove W :=
  let r := fresh "r" in
  let Hr := fresh "Hr" in
  let ev := fresh "ev" in
  destruct (removeInventoryFile_res W) as [r Hr];
  destruct (removeInventoryFile_quiet W) as (? & ? & ? & ? & ? & ? & ? & ?);
  destruct (removeInventoryFile_last W) as (? & ?);
  destruct (removeInventoryFile W) as [? ev [? ? ? ?]];
  cbn [res evs world inventory faults stdin remote] in *; subst;
  destruct r.

Ltac run_step :=
  match goal with
  | |- context [readLine ?s] =>
      let l := fresh "line" in
      let r := fresh "rest" in
      let H := fresh "Hread" in
      lazymatch s with
      | context [readLine _] => fail
      | _ => destruct (readLine s) as [l r] eqn:H
      end
  | |- context [getAllNodes ?c] => destruct (getAllNodes c) as [?nodes|?err] eqn:?
  | |- context [createInventoryFile ?n ?u ?W] => use_create n u W
  | |- context [ansible ?a ?i ?e] =>
      let H := fresh "Hrun" in
      destruct (ansible a i e) as [[?out [?err|]] ?e] eqn:H
  | |- context [Nat.leb ?a ?b] => destruct (Nat.leb a b) eqn:?
  | |- context [isEmpty ?s] => destruct (isEmpty s) eqn:?
  | |- context [String.eqb (TrimSpace ?s) ?t] => destruct (String.eqb (TrimSpace s) t) eqn:?
  | |- context [ServicesList ?c] => destruct (ServicesList c) as [?items|?err] eqn:?
  | |- context [runARPCommandOnAllNodes ?a ?b ?c ?d ?W] =>
      rewrite (runARPCommandOnAllNodes_eq a b c d W); cbn zeta
  | |- context [removeInventoryFile ?W] => use_remove W
  end;
  cbn.

Ltac run_unfold :=
  unfold main, main_colored, main_plain, printWelcomeMessage,
    getInterfaceNameStartingWithSeven, getLoadBalancerIPsStartingWithSeven,
    getSpecificLoadBalancerIPs, loadingAnimation, stopSpinner, CombinedOutput,
    Print, emit, ReadString, os_Exit, ret, bind;
  cbn.

Ltac run_main h w :=
  destruct h as [[?usr|?e] [?c|] [?e|] [?cs|?e]], w as [?inv ?fs ?sin ?e];
  run_unfold; repeat run_step.

Ltac trace_facts :=
  repeat match goal with
         | |- context [map exec_event ?t] =>
             lazymatch goal with
             | _ : removals (map exec_event t) = 0 |- _ => fail
             | _ => destruct (exec_events_quiet t) as (? & ? & ? & ?)
             end
         end.

Ltac trace_norm :=
  trace_facts;
  repeat first
    [ rewrite removals_app | rewrite rendered_app | rewrite execs_app
    | rewrite probes_app | rewrite created_app | rewrite printed_app
    | match goal with
      | H : removals ?l = _ |- context [removals ?l] => rewrite H
      | H : rendered ?l = _ |- context [rendered ?l] => rewrite H
      | H : execs ?l = _ |- context [execs ?l] => rewrite H
      | H : probes ?l = _ |- context [probes ?l] => rewrite H
      | H : created ?l = _ |- context [created ?l] => rewrite H
      | H : forall s, printed ?l s = false |- context [printed ?l ?s] => rewrite (H s)
      end
    | progress cbn ].

Ltac after_norm :=
  trace_facts;
  repeat first
    [ rewrite <- app_assoc
    | rewrite after_removal_app0 by assumption
    | rewrite after_removal_app1 by assumption
    | progress cbn ].

(** The property of the finished run is set aside while the run is
    stepped through, and taken up again at each of its ends. *)
Ltac post_intro :=
  cbn zeta;
  match goal with
  | |- context [main ?v ?h ?w] =>
      pattern (main v h w);
      match goal with
      | |- ?P ?x =>
          let post := fresh "post" in
          let Hpost := fresh "Hpost" in
          let Hc := fresh "Hc" in
          cut (forall post : Out unit -> Prop, (forall o, P o -> post o) -> post x);
          [ intros Hc; apply (Hc P); auto | intros post Hpost ]
      end
  end.

Ltac post_elim :=
  match goal with
  | Hpost : forall o, _ -> ?post o |- ?post _ => apply Hpost; cbn beta; clear Hpost
  end.

(** C3 (as amended). A run that completes normally enters
    [removeInventoryFile] exactly once, after the one table has been rendered
    and with no remote command and no rendering after it; a run that ends
    in [os.Exit] never enters it (the call is not deferred, and no abort
    path performs it). *)
Theorem C3_removal_on_completion (v : Variant) (h : Host) (w : World) :
  let o := main v h w in
  match res o with
  | Ret _ =>
      removals (evs o) = 1
      /\ length (rendered (evs o)) = 1
      /\ rendered (after_removal (evs o)) = []
      /\ execs (after_removal (evs o)) = []
  | Exit _ => removals (evs o) = 0
  end.
Proof.
  post_intro.
  destruct v; run_main h w; post_elim; cbn [res evs];
    try (trace_norm; reflexivity).
  all: split; [trace_norm; reflexivity|].
  all: split; [trace_norm; reflexivity|].
  all: after_norm; split; trace_norm; reflexivity.
Qed.


Lemma fold_left_snoc {A : Type} (l acc : list A) :
  fold_left (fun a x => (a ++ [x])%list) l acc = (acc ++ l)%list.
Proof.
  revert acc. induction l as [|x l IH]; intros acc; simpl.
  - now rewrite app_nil_r.
  - rewrite IH. now rewrite <- app_assoc.
Qed.

Lemma getAllNodes_ok cs items : NodesList cs = inl items -> getAllNodes cs = inl items.
Proof. unfold getAllNodes. intros ->. now rewrite fold_left_snoc. Qed.

(** C4 (as amended). When the answer to the menu is neither "yes" nor "no",
    the run ends with exit code 1 before any candidate address is probed and
    before any table is rendered.  In the entry point of [part_000], which
    asks before it creates the inventory, such a run performs no [os.Create]
    and no write, and leaves the file as it found it. *)
Theorem C4_invalid_option (v : Variant) (h : Host) (w : World) :
  flag_Parse h = None ->
  TrimSpace (fst (readLine (snd (readLine (stdin w))))) <> "yes" ->
  TrimSpace (fst (readLine (snd (readLine (stdin w))))) <> "no" ->
  let o := main v h w in
  res o = Exit 1 /\ probes (evs o) = [] /\ rendered (evs o) = []
  /\ (v = Plain ->
      forallb (fun e => negb (is_file_write e)) (evs o) = true
      /\ inventory (world o) = inventory w).
Proof.
  intros Hflag Hyes Hno. post_intro.
  revert Hflag Hyes Hno.
  destruct v; run_main h w; intros Hflag Hyes Hno; try discriminate Hflag;
    repeat (match goal with
            | H : (_, _) = (_, _) |- _ => injection H as ? ?; subst
            end);
    try (match goal with
         | H : String.eqb _ _ = true |- _ => apply String.eqb_eq in H; contradiction
         end).
  all: post_elim; cbn [res evs world inventory].
  all: repeat split; try discriminate; try (trace_norm; reflexivity).
Qed.




Ltac find_in :=
  repeat first
    [ left; reflexivity
    | right
    | rewrite in_app_iff
    | progress cbn [In] ].


(** ** Further properties of whole runs *)

Ltac use_create2 n u W :=
  let r := fresh "r" in
  let Hr := fresh "Hr" in
  let ev := fresh "ev" in
  let Hc := fresh "Hcreate" in
  let Hev := fresh "Hfile" in
  destruct (createInventoryFile_res n u W) as [r Hr];
  destruct (createInventoryFile_quiet n u W) as (? & ? & ? & ? & ?);
  destruct (createInventoryFile_frame n u W) as [? ?];
  pose proof (createInventoryFile_events n u W) as Hev;
  pose proof (createInventoryFile_ok n u W);
  pose proof (createInventoryFile_total n u W);
  destruct (createInventoryFile n u W) as [? ev [? ? ? ?]] eqn:Hc;
  cbn [res evs world inventory faults stdin remote] in *; subst;
  destruct r;
  [ | match goal with
      | H : Ret None = Ret None -> _ |- _ => destruct (H eq_refl) as (? & ? & ?); subst
      end ].

Ltac use_remove2 W :=
  let r := fresh "r" in
  let Hr := fresh "Hr" in
  let ev := fresh "ev" in
  let Hc := fresh "Hremove" in
  destruct (removeInventoryFile_res W) as [r Hr];
  destruct (removeInventoryFile_quiet W) as (? & ? & ? & ? & ? & ? & ? & ?);
  destruct (removeInventoryFile_last W) as (? & ?);
  destruct (removeInventoryFile W) as [? ev [? ? ? ?]] eqn:Hc;
  cbn [res evs world inventory faults stdin remote] in *; subst;
  destruct r.

Ltac pair_norm :=
  repeat match goal with
         | |- context [snd (?a, ?b)] => change (snd (a, b)) with b
         | |- context [fst (?a, ?b)] => change (fst (a, b)) with a
         end.

Ltac run_step2 :=
  match goal with
  | |- context [readLine ?s] =>
      let l := fresh "line" in
      let r := fresh "rest" in
      let H := fresh "Hread" in
      lazymatch s with
      | context [readLine _] => fail
      | _ => destruct (readLine s) as [l r] eqn:H
      end
  | |- context [getAllNodes ?c] => destruct (getAllNodes c) as [?nodes|?err] eqn:?
  | |- context [createInventoryFile ?n ?u ?W] => use_create2 n u W
  | |- context [ansible ?a ?i ?e] =>
      let H := fresh "Hrun" in
      destruct (ansible a i e) as [[?out [?err|]] ?e] eqn:H
  | |- context [Nat.leb ?a ?b] => destruct (Nat.leb a b) eqn:?
  | |- context [isEmpty ?s] => destruct (isEmpty s) eqn:?
  | |- context [String.eqb (TrimSpace ?s) ?t] => destruct (String.eqb (TrimSpace s) t) eqn:?
  | |- context [ServicesList ?c] => destruct (ServicesList c) as [?items|?err] eqn:?
  | |- context [runARPCommandOnAllNodes ?a ?b ?c ?d ?W] =>
      rewrite (runARPCommandOnAllNodes_eq a b c d W); cbn zeta
  | |- context [removeInventoryFile ?W] => use_remove2 W
  end;
  cbn; pair_norm.

Ltac run_main2 h w :=
  destruct h as [[?usr|?e] [?c|] [?e|] [?cs|?e]], w as [?inv ?fs ?sin ?e];
  run_unfold; pair_norm; repeat run_step2.

(** X8. The program itself only ever calls [os.Exit] with code 1: a run ends
    by returning from [main], or with exit code 1, or with the code with
    which the flag package left during [flag.Parse]. *)
Theorem X8_exit_codes (v : Variant) (h : Host) (w : World) :
  match res (main v h w) with
  | Ret _ => True
  | Exit c => c = 1%Z \/ flag_Parse h = Some c
  end.
Proof.
  post_intro.
  destruct v; run_main h w; post_elim; cbn; auto.
Qed.

(** X9. When the setup fails (current user, flags, kubeconfig or client),
    the run ends in [os.Exit] at once: it prints at most the one error
    message and nothing else happens; nothing is read from standard input,
    the inventory file is not touched, no remote command is run. *)
Theorem X9_setup_failure (v : Variant) (h : Host) (w : World) :
  setup_ok h = false ->
  let o := main v h w in
  (exists c, res o = Exit c)
  /\ world o = w
  /\ forallb is_print (evs o) = true
  /\ length (evs o) <= 1.
Proof.
  intros Hs. cbn zeta.
  destruct h as [[usr|e1] [c|] [e2|] [cs|e3]]; try discriminate Hs;
    destruct v; cbn; repeat split; eauto.
Qed.

Lemma getAllNodes_failed cs err : NodesList cs = inr err -> getAllNodes cs = inr err.
Proof. unfold getAllNodes. now intros ->. Qed.

(** X10. When the node listing fails the run ends with exit code 1 without
    creating or writing the inventory, without any probe and without a
    table; the entry point of [get_loadBalancerIP.go], which lists the nodes
    first, has then run no remote command at all. *)
Theorem X10_node_listing_failure (v : Variant) (h : Host) (w : World)
        (cs : Clientset) (err : error) :
  flag_Parse h = None ->
  NewForConfig h = inl cs ->
  NodesList cs = inr err ->
  let o := main v h w in
  res o = Exit 1
  /\ forallb (fun e => negb (is_file_write e)) (evs o) = true
  /\ inventory (world o) = inventory w
  /\ probes (evs o) = []
  /\ rendered (evs o) = []
  /\ (v = Colored -> execs (evs o) = []).
Proof.
  intros Hflag Hcli Hnodes. apply getAllNodes_failed in Hnodes. post_intro.
  destruct h as [hu hf hc hn], w as [inv fs sin e].
  cbn [user_Current flag_Parse BuildConfigFromFlags NewForConfig] in *. subst.
  destruct hu as [usr|e1], hc as [e2|].
  all: destruct v; run_unfold; rewrite ?Hnodes; cbn; repeat run_step.
  all: post_elim; cbn [res evs world inventory].
  all: repeat split; try discriminate; try (trace_norm; reflexivity).
Qed.
(** X11. The remote commands of a run that completes are exactly: the
    discovery command, then the sweep of the listed nodes, as the user typed
    on the first input line (trimmed), on the interface that discovery gave,
    over the candidates (the filtered service addresses on "yes", nothing
    when the service listing failed, the comma-separated parts of the third
    input line on "no").  Discovery runs against the inventory just written
    in [get_loadBalancerIP.go], but against whatever file was there before
    the run in [part_000]; all probes run against the inventory just written. *)
Theorem X11_commands_of_completed_run (v : Variant) (h : Host) (w : World)
        (cs : Clientset) (nodes : list string) :
  NewForConfig h = inl cs ->
  NodesList cs = inl nodes ->
  res (main v h w) = Ret tt ->
  let ansibleUsername := TrimSpace (fst (readLine (stdin w))) in
  let rest := snd (readLine (stdin w)) in
  let option := TrimSpace (fst (readLine rest)) in
  let lbIPs :=
    if String.eqb option "yes"
    then match ServicesList cs with
         | inl items => candidates items
         | inr _ => []
         end
    else Split (TrimSpace (fst (readLine (snd (readLine rest))))) ","%char in
  let written := Some (inventory_content nodes ansibleUsername) in
  let seen := match v with Colored => written | Plain => inventory w end in
  let r := ansible (discover_args v) seen (remote w) in
  let arpInterface :=
    match v with
    | Colored => TrimSpace (nth 2 (Split (TrimSpace (fst (fst r))) "010"%char) EmptyString)
    | Plain => TrimSpace (fst (fst r))
    end in
  arpInterface <> EmptyString
  /\ execs (evs (main v h w))
     = (discover_args v, fst r)
       :: thread (sweep nodes arpInterface ansibleUsername lbIPs) written (snd r).
Proof.
  intros Hcli Hnodes Hres. apply getAllNodes_ok in Hnodes. cbn zeta.
  revert Hres.
  destruct h as [hu hf hc hn], w as [inv fs sin e].
  cbn [user_Current flag_Parse BuildConfigFromFlags NewForConfig stdin inventory remote] in *.
  subst.
  destruct hu as [usr|e1], hf as [c|], hc as [e2|];
    try (destruct v; intros Hres; discriminate Hres).
  destruct v; run_unfold; rewrite ?Hnodes; cbn; pair_norm; repeat run_step2;
    intros Hres; try discriminate Hres;
    repeat (match goal with
            | H : (_, _) = (_, _) |- _ => injection H as ? ?; subst
            end);
    try congruence.
  all: repeat (match goal with
               | H1 : readLine ?x = _, H2 : readLine ?x = _ |- _ =>
                   rewrite H1 in H2; injection H2 as ? ?; subst
               end).
  all: split;
    [ intros Hx;
      match goal with
      | Hb : isEmpty _ = false |- _ => rewrite Hx in Hb; discriminate Hb
      end
    | trace_norm; rewrite ?execs_exec_events, ?app_nil_r, ?collectServices_candidates;
      reflexivity ].
Qed.
Lemma spins_app (l1 l2 : list Event) : spins (l1 ++ l2) = (spins l1 ++ spins l2)%list.
Proof.
  induction l1 as [|e l1 IH]; simpl; [reflexivity|].
  destruct e; simpl; rewrite ?IH; reflexivity.
Qed.

Lemma remove_errors_app (l1 l2 : list Event) :
  remove_errors (l1 ++ l2) = (remove_errors l1 ++ remove_errors l2)%list.
Proof.
  induction l1 as [|e l1 IH]; simpl; [reflexivity|].
  destruct e as [| | | | |[err|]| | | | |]; simpl; rewrite ?IH; reflexivity.
Qed.

Lemma file_events_more (l : list Event) :
  forallb file_event l = true -> spins l = [] /\ remove_errors l = [].
Proof.
  induction l as [|e l IH]; simpl; [now auto|].
  intros H. apply andb_prop in H. destruct H as [He Hl].
  destruct (IH Hl) as [H1 H2]. destruct e; try discriminate He; simpl; auto.
Qed.

Lemma exec_events_more t :
  spins (map exec_event t) = [] /\ remove_errors (map exec_event t) = [].
Proof. induction t as [|x t [H1 H2]]; simpl; auto. Qed.

Lemma removeInventoryFile_more (w : World) :
  spins (evs (removeInventoryFile w)) = []
  /\ remove_errors (evs (removeInventoryFile w))
     = match res (removeInventoryFile w) with
       | Ret (Some e) => [e]
       | _ => []
       end
  /\ (no_fault 2 (faults w) = true -> inventory (world (removeInventoryFile w)) = None).
Proof.
  run_remove w; repeat split; try reflexivity; intros H; try discriminate H; reflexivity.
Qed.

Ltac more_facts :=
  repeat match goal with
         | Hf : forallb file_event ?ev = true |- _ =>
             destruct (file_events_more _ Hf) as [? ?]; clear Hf
         | Hr : removeInventoryFile ?W = _ |- _ =>
             let Hm := fresh "Hm" in
             pose proof (removeInventoryFile_more W) as Hm; rewrite Hr in Hm;
             cbn [res evs world inventory faults] in Hm;
             destruct Hm as (? & ? & ?); clear Hr
         | |- context [map exec_event ?t] =>
             lazymatch goal with
             | _ : spins (map exec_event t) = [] |- _ => fail
             | _ => destruct (exec_events_more t) as (? & ?)
             end
         end.

Ltac more_norm :=
  more_facts;
  repeat first
    [ rewrite spins_app | rewrite remove_errors_app
    | match goal with
      | H : spins ?l = _ |- context [spins ?l] => rewrite H
      | H : remove_errors ?l = _ |- context [remove_errors ?l] => rewrite H
      end
    | progress cbn ].

Ltac post_intro2 :=
  cbn zeta;
  match goal with
  | |- context [main ?v ?h ?w] =>
      pattern (main v h w);
      match goal with
      | |- ?P ?x =>
          let post := fresh "post" in
          let Hpost := fresh "Hpost" in
          let Hc := fresh "Hc" in
          cut (forall post : Out unit -> Prop, (forall o, P o -> post o) -> post x);
          [ intros Hc; exact (Hc P (fun o H => H)) | intros post Hpost ]
      end
  end.

(** X12. The progress indicator is started and stopped exactly once, in this
    order, on every run that returns from [main]; a run that ends in
    [os.Exit] has never started it, so it is never left running. *)
Theorem X12_spinner (v : Variant) (h : Host) (w : World) :
  match res (main v h w) with
  | Ret _ => spins (evs (main v h w)) = [ESpinnerStart; ESpinnerStop]
  | Exit _ => spins (evs (main v h w)) = []
  end.
Proof.
  post_intro.
  destruct v; run_main2 h w; post_elim; cbn [res evs]; more_norm; reflexivity.
Qed.

(** X13. A failure of [os.Remove] at the end of a run is reported and not
    escalated: the run prints the error and still returns from [main]. *)
Theorem X13_removal_error_reported (v : Variant) (h : Host) (w : World) (e : error) :
  In e (remove_errors (evs (main v h w))) ->
  res (main v h w) = Ret tt
  /\ In (EPrint (paint v ColorRed ("Error removing inventory file: " ++ e) ++ nl))
        (evs (main v h w)).
Proof.
  post_intro2.
  destruct v; run_main2 h w; post_elim; cbn [res evs]; more_norm;
    intros Hin; try (now elim Hin).
  all: destruct Hin as [<-|[]]; split; [reflexivity|find_in].
Qed.

(** X14. A run that returns from [main] without any failing system call on
    the file leaves no inventory behind. *)
Theorem X14_completed_run_cleans_up (v : Variant) (h : Host) (w : World) :
  faults w = [] ->
  res (main v h w) = Ret tt ->
  inventory (world (main v h w)) = None.
Proof.
  intros Hf. post_intro2. revert Hf.
  destruct h as [[?usr|?e] [?c|] [?e|] [?cs|?e]], w as [?inv ?fs ?sin ?e].
  all: cbn [faults]; intros ->.
  all: destruct v; run_unfold; pair_norm; repeat run_step2.
  all: post_elim; cbn [res evs world inventory]; intros Hres; try discriminate Hres.
  all: more_facts; auto.
Qed.

(** X17. A failure while the inventory is written is fatal: the run ends
    with exit code 1 without any probe and without a table.  In
    [get_loadBalancerIP.go], where the inventory is written first, the run
    reports that error and has run no remote command at all. *)
Theorem X17_creation_failure (v : Variant) (h : Host) (w : World)
        (cs : Clientset) (nodes : list string) (e : error) :
  setup_ok h = true ->
  NewForConfig h = inl cs ->
  NodesList cs = inl nodes ->
  first_fault (2 + length nodes) (faults w) = Some e ->
  let o := main v h w in
  res o = Exit 1
  /\ probes (evs o) = []
  /\ rendered (evs o) = []
  /\ (v = Colored ->
      execs (evs o) = []
      /\ In (EPrint (paint v ColorRed ("Error creating inventory file: " ++ e) ++ nl))
            (evs o)).
Proof.
  intros Hs Hcli Hnodes Hfault. apply getAllNodes_ok in Hnodes. post_intro2.
  destruct h as [[usr|e1] [c|] [e2|] [hn|e3]], w as [inv fs sin e0];
    try discriminate Hs; try discriminate Hcli.
  cbn [NewForConfig faults] in *. injection Hcli as ->.
  destruct v; run_unfold; rewrite ?Hnodes; cbn; pair_norm; repeat run_step2.
  all: repeat match goal with
              | Hc : createInventoryFile ?n ?u ?W = _ |- _ =>
                  let Hf := fresh "Hf" in
                  pose proof (createInventoryFile_first_fault n u W) as Hf;
                  rewrite Hc in Hf; cbn [res faults] in Hf; rewrite Hfault in Hf;
                  clear Hc
              end.
  all: try match goal with
           | Hf : Ret None = Ret (Some _) |- _ => discriminate Hf
           end.
  all: post_elim; cbn [res evs].
  all: repeat split; try discriminate; try (trace_norm; reflexivity).
  all: match goal with
       | Hf : Ret (Some _) = Ret (Some _) |- _ => injection Hf as ->
       end; find_in.
Qed.

End Program.

Arguments mkWorld {E} inventory faults stdin remote.
Arguments inventory {E} w.
Arguments faults {E} w.
Arguments stdin {E} w.
Arguments remote {E} w.
Arguments res {E A} o.
Arguments evs {E A} o.
Arguments world {E A} o.
Arguments createInventoryFile {E} nodes ansibleUsername w.
Arguments removeInventoryFile {E} w.
Arguments getInterfaceNameStartingWithSeven {E} ansible v w.
Arguments runARPCommandOnAllNodes {E} ansible nodes arpInterface lbIPs ansibleUsername w.
Arguments main {E} ansible v h w.

(** ** The program on the sample environments *)

(** C5 on a world where a stale inventory exists and nothing fails. *)
Lemma C5_witness :
  inventory (world (createInventoryFile ["n1"; "n2"] "alice"
                      (mkWorld (Some "stale") [] "" tt)))
  = Some ("[k8s]" ++ nl ++ "n1 ansible_user=alice" ++ nl ++ "n2 ansible_user=alice" ++ nl).
Proof.
  apply (proj1 (C5_inventory_content unit ["n1"; "n2"] "alice"
                  (mkWorld (Some "stale") [] "" tt))).
  reflexivity.
Defined.

(** C9 on a world without inventory and without faults. *)
Lemma C9_witness :
  (inventory (world (removeInventoryFile
                       (world (createInventoryFile ["n1"; "n2"] "alice"
                                 (mkWorld None [] "" tt))))) = None)
  /\ res (removeInventoryFile (mkWorld None [] "" tt)) = Ret None.
Proof.
  split.
  - apply (proj1 (C9_create_remove unit ["n1"; "n2"] "alice" (mkWorld None [] "" tt)));
      reflexivity.
  - apply (proj2 (C9_create_remove unit ["n1"; "n2"] "alice" (mkWorld None [] "" tt))).
    reflexivity.
Defined.

(** C8 on a cluster where no probe is Hosting, and on the example of the
    specification: n1 and n2 swept for 7.1.2.3 and 7.5.5.5, Hosting only for
    7.1.2.3. *)
Lemma C8_witness :
  rendered (evs (runARPCommandOnAllNodes unreachable ["n1"; "n2"] "eth1"
                   ["7.1.2.3"; "7.5.5.5"] "alice" (mkWorld None [] "" tt)))
  = [mkTable ["Node Name"; "LoadBalancer IP"] []]
  /\ rendered (evs (runARPCommandOnAllNodes sample_ansible ["n1"; "n2"] "eth1"
                      ["7.1.2.3"; "7.5.5.5"] "alice" (mkWorld None [] "" 0)))
     = [mkTable ["Node Name"; "LoadBalancer IP"] [["n1"; "7.1.2.3"]; ["n2"; "7.1.2.3"]]].
Proof.
  split.
  - apply (C8_rendered_rows unit unreachable ["n1"; "n2"] "eth1" ["7.1.2.3"; "7.5.5.5"]
             "alice" (mkWorld None [] "" tt)).
    vm_compute. reflexivity.
  - exact (proj1 (proj2 (C8_rendered_rows nat sample_ansible ["n1"; "n2"] "eth1"
                           ["7.1.2.3"; "7.5.5.5"] "alice" (mkWorld None [] "" 0)))).
Defined.

(** C3, as the specification states it, fails: in the coloured entry point
    the inventory is created, interface discovery fails, and the run ends
    in [os.Exit(1)] without ever entering [removeInventoryFile]; the file
    stays behind. *)
Lemma C3_counterexample :
  let o := main unreachable Colored (sample_host (inl []))
             (mkWorld None [] ("alice" ++ nl) tt) in
  created (evs o) = true
  /\ res o = Exit 1
  /\ removals (evs o) = 0
  /\ inventory (world o)
     = Some ("[k8s]" ++ nl ++ "n1 ansible_user=alice" ++ nl ++ "n2 ansible_user=alice" ++ nl).
Proof. vm_compute. repeat split. Qed.

(** C4, as the specification states it, fails: the coloured entry point has
    already written the inventory when the menu is answered with "maybe". *)
Lemma C4_counterexample :
  let w := mkWorld None [] ("alice" ++ nl ++ "maybe" ++ nl) 0 in
  let o := main sample_ansible Colored (sample_host (inl [])) w in
  TrimSpace (fst (readLine (snd (readLine (stdin w))))) = "maybe"
  /\ res o = Exit 1
  /\ created (evs o) = true
  /\ inventory (world o)
     = Some ("[k8s]" ++ nl ++ "n1 ansible_user=alice" ++ nl ++ "n2 ansible_user=alice" ++ nl).
Proof. vm_compute. repeat split. Qed.

(** C4 on [part_000] with the answer "maybe": the stale inventory is left
    as it was. *)
Lemma C4_witness :
  let w := mkWorld (Some "stale") [] ("alice" ++ nl ++ "maybe" ++ nl) 0 in
  let o := main sample_ansible Plain (sample_host (inl [])) w in
  res o = Exit 1 /\ probes (evs o) = [] /\ rendered (evs o) = []
  /\ (Plain = Plain ->
      forallb (fun e => negb (is_file_write e)) (evs o) = true
      /\ inventory (world o) = inventory w).
Proof.
  apply (C4_invalid_option nat sample_ansible Plain (sample_host (inl []))
           (mkWorld (Some "stale") [] ("alice" ++ nl ++ "maybe" ++ nl) 0)).
  - reflexivity.
  - vm_compute. discriminate.
  - vm_compute. discriminate.
Defined.




Arguments getSpecificLoadBalancerIPs {E} w.
Arguments thread {E} ansible cmds inv e.

(** ** The further properties on the sample environments *)

(** X2 where the second write fails: the file is still closed. *)
Lemma X2_witness :
  exists writes,
    evs (createInventoryFile ["n1"; "n2"] "alice"
           (mkWorld None [None; None; Some "disk full"] "" tt))
    = (ECreate None :: writes ++ [EClose])%list
    /\ forallb is_write writes = true
    /\ length writes <= 1 + 2.
Proof.
  apply (proj2 (X2_create_bracket unit ["n1"; "n2"] "alice"
                  (mkWorld None [None; None; Some "disk full"] "" tt))).
  reflexivity.
Defined.


(** X4 where [os.Stat] fails on an existing file. *)
Lemma X4_witness :
  res (removeInventoryFile (mkWorld (Some "[k8s]") [Some "input/output error"] "" tt))
  = Ret None
  /\ inventory (world (removeInventoryFile
                         (mkWorld (Some "[k8s]") [Some "input/output error"] "" tt)))
     = Some "[k8s]"
  /\ evs (removeInventoryFile (mkWorld (Some "[k8s]") [Some "input/output error"] "" tt))
     = [EInvoke "removeInventoryFile"; EStat (Some "input/output error")].
Proof.
  apply (proj1 (proj2 (X4_remove_errors unit
                         (mkWorld (Some "[k8s]") [Some "input/output error"] "" tt)))
           "input/output error" "[k8s]"); reflexivity.
Defined.

(** X6 with an empty candidate list. *)
Lemma X6_witness :
  execs (evs (runARPCommandOnAllNodes sample_ansible ["n1"; "n2"] "eth1" [] "alice"
                (mkWorld None [] "" 0))) = []
  /\ remote (world (runARPCommandOnAllNodes sample_ansible ["n1"; "n2"] "eth1" [] "alice"
                      (mkWorld None [] "" 0))) = 0
  /\ rendered (evs (runARPCommandOnAllNodes sample_ansible ["n1"; "n2"] "eth1" [] "alice"
                      (mkWorld None [] "" 0)))
     = [mkTable ["Node Name"; "LoadBalancer IP"] []].
Proof.
  apply (X6_sweep_frame nat sample_ansible ["n1"; "n2"] "eth1" [] "alice"
           (mkWorld None [] "" 0)).
  right. reflexivity.
Defined.

(** X9 on a host where the current user cannot be determined. *)
Lemma X9_witness :
  let w := mkWorld (Some "stale") [] ("alice" ++ nl) 0 in
  let o := main sample_ansible Plain
             (mkHost (inr "user: unknown userid 1000") None None (inr "unused")) w in
  (exists c, res o = Exit c)
  /\ world o = w
  /\ forallb is_print (evs o) = true
  /\ length (evs o) <= 1.
Proof.
  apply (X9_setup_failure nat sample_ansible Plain
           (mkHost (inr "user: unknown userid 1000") None None (inr "unused"))
           (mkWorld (Some "stale") [] ("alice" ++ nl) 0)).
  reflexivity.
Defined.

(** X10 on a cluster whose node listing times out. *)
Lemma X10_witness :
  let h := mkHost (inl (mkUser "bob" "/home/bob")) None None
                  (inl (mkClientset (inl []) (inr "timeout"))) in
  let w := mkWorld None [] ("alice" ++ nl ++ "yes" ++ nl) 0 in
  let o := main sample_ansible Plain h w in
  res o = Exit 1
  /\ forallb (fun e => negb (is_file_write e)) (evs o) = true
  /\ inventory (world o) = inventory w
  /\ probes (evs o) = []
  /\ rendered (evs o) = []
  /\ (Plain = Colored -> execs (evs o) = []).
Proof.
  apply (X10_node_listing_failure nat sample_ansible Plain
           (mkHost (inl (mkUser "bob" "/home/bob")) None None
                   (inl (mkClientset (inl []) (inr "timeout"))))
           (mkWorld None [] ("alice" ++ nl ++ "yes" ++ nl) 0)
           (mkClientset (inl []) (inr "timeout")) "timeout"); reflexivity.
Defined.

(** X11 on the sample cluster with one LoadBalancer address. *)
Lemma X11_witness :
  map fst (execs (evs (main sample_ansible Colored
                         (sample_host (inl [mkService "LoadBalancer" ["7.1.2.3"]]))
                         (mkWorld None [] ("alice" ++ nl ++ "yes" ++ nl) 0))))
  = [discover_args Colored;
     probe_args "n1" "alice" "eth1" "7.1.2.3";
     probe_args "n2" "alice" "eth1" "7.1.2.3"].
Proof.
  rewrite (proj2 (X11_commands_of_completed_run nat sample_ansible Colored
                    (sample_host (inl [mkService "LoadBalancer" ["7.1.2.3"]]))
                    (mkWorld None [] ("alice" ++ nl ++ "yes" ++ nl) 0)
                    (mkClientset (inl [mkService "LoadBalancer" ["7.1.2.3"]])
                                 (inl ["n1"; "n2"]))
                    ["n1"; "n2"] eq_refl eq_refl eq_refl)).
  reflexivity.
Defined.

(** X13 where [os.Remove] is refused at the end of the run. *)
Lemma X13_witness :
  let w := mkWorld None [None; None; None; None; None; Some "permission denied"]
                   ("alice" ++ nl ++ "yes" ++ nl) 0 in
  let o := main sample_ansible Colored (sample_host (inl [])) w in
  res o = Ret tt
  /\ In (EPrint (paint Colored ColorRed
                   ("Error removing inventory file: " ++ "permission denied") ++ nl))
        (evs o).
Proof.
  apply (X13_removal_error_reported nat sample_ansible Colored (sample_host (inl []))
           (mkWorld None [None; None; None; None; None; Some "permission denied"]
                    ("alice" ++ nl ++ "yes" ++ nl) 0)).
  vm_compute. left. reflexivity.
Defined.

(** X14 on a run without faults over a stale inventory. *)
Lemma X14_witness :
  inventory (world (main sample_ansible Plain
                      (sample_host (inl [mkService "LoadBalancer" ["7.1.2.3"]]))
                      (mkWorld (Some "stale") [] ("alice" ++ nl ++ "yes" ++ nl) 0)))
  = None.
Proof.
  apply (X14_completed_run_cleans_up nat sample_ansible Plain
           (sample_host (inl [mkService "LoadBalancer" ["7.1.2.3"]]))
           (mkWorld (Some "stale") [] ("alice" ++ nl ++ "yes" ++ nl) 0));
    reflexivity.
Defined.

(** X15 for the nodes n1, n2 and the user alice. *)
Lemma X15_witness :
  exists content,
    inventory (world (createInventoryFile ["n1"; "n2"] "alice"
                        (mkWorld None [] "" tt))) = Some content
    /\ Split content "010"%char
       = ["[k8s]"; "n1 ansible_user=alice"; "n2 ansible_user=alice"; ""].
Proof.
  apply (X15_inventory_lines unit ["n1"; "n2"] "alice" (mkWorld None [] "" tt)).
  - repeat constructor; simpl; intros H;
      repeat (destruct H as [H|H]; [discriminate H|]); exact H.
  - simpl. intros H. repeat (destruct H as [H|H]; [discriminate H|]). exact H.
  - reflexivity.
Defined.

(** X17 where the header cannot be written. *)
Lemma X17_witness :
  let w := mkWorld None [None; Some "disk full"] ("alice" ++ nl ++ "yes" ++ nl) 0 in
  let o := main sample_ansible Colored (sample_host (inl [])) w in
  res o = Exit 1
  /\ probes (evs o) = []
  /\ rendered (evs o) = []
  /\ (Colored = Colored ->
      execs (evs o) = []
      /\ In (EPrint (paint Colored ColorRed ("Error creating inventory file: " ++ "disk full")
                     ++ nl)) (evs o)).
Proof.
  apply (X17_creation_failure nat sample_ansible Colored (sample_host (inl []))
           (mkWorld None [None; Some "disk full"] ("alice" ++ nl ++ "yes" ++ nl) 0)
           (mkClientset (inl []) (inl ["n1"; "n2"])) ["n1"; "n2"] "disk full");
    reflexivity.
Defined.

